(** * University chatbot: the syllabus RAG pipeline and the follow-up suggester

    A shallow embedding of [chatbot_script.py] (class
    [EnhancedSyllabusRAGChatbot], the construction of the vector store and
    [setup_enhanced_chatbot]), of the admissions module [app.py]
    (follow-up helper, initialisation, question endpoint), and of the
    course and admissions endpoints and the column clean-up of
    [integrated_main.py] and [placements_chatbot.py], together with the
    properties of the specification that concern them and further
    properties read off the code.

    Conventions of the embedding.
    - A Python [str] is a [string]; every character is taken to be an ASCII
      code point, for which [lower], [upper] and the regular-expression
      classes below are exactly Python's.  A character above 127 is treated
      as caseless and as belonging to no class.
    - A value decoded by [json.load] is a [json]; dictionaries keep their
      insertion order (association lists, first binding of a key).
    - A Python float is kept as the two observations the program makes of
      one: its truth value and its [repr].
    - An exception is a value of [exn]; a method that mutates [self] and
      may raise returns the state reached together with its outcome.
    - The embedder, the vector collection, the text generator and
      [ast.literal_eval] are collaborators: they appear as functions that
      either return or raise. *)

From Stdlib Require Import String Ascii List ZArith Bool Arith Lia.
From Stdlib Require Import DecimalString Sorted Permutation.
From Stdlib Require DecimalPos DecimalZ.
Import ListNotations.

#[local] Set Warnings "-register-all".

Local Open Scope list_scope.
Local Open Scope string_scope.

(* ================================================================== *)
(** ** Python strings *)

Module PyStr.

Definition nl : string := String "010"%char EmptyString.
Definition dquote : ascii := "034"%char.
Definition squote : ascii := "039"%char.
Definition backslash : ascii := "092"%char.

Definition between (lo hi : nat) (c : ascii) : bool :=
  (lo <=? nat_of_ascii c)%nat && (nat_of_ascii c <=? hi)%nat.

(** [\d], [[A-Z]], [[a-z]], [\s] and [\w] on ASCII. *)
Definition is_digit (c : ascii) : bool := between 48 57 c.
Definition is_upper (c : ascii) : bool := between 65 90 c.
Definition is_lower (c : ascii) : bool := between 97 122 c.
Definition is_space (c : ascii) : bool := between 9 13 c || between 28 32 c.
Definition is_word (c : ascii) : bool :=
  is_digit c || is_upper c || is_lower c || (nat_of_ascii c =? 95)%nat.

Definition lower_char (c : ascii) : ascii :=
  if is_upper c then ascii_of_nat (nat_of_ascii c + 32) else c.
Definition upper_char (c : ascii) : ascii :=
  if is_lower c then ascii_of_nat (nat_of_ascii c - 32) else c.

Fixpoint map_chars (f : ascii -> ascii) (s : string) : string :=
  match s with
  | EmptyString => EmptyString
  | String c s' => String (f c) (map_chars f s')
  end.

(** [s.lower()] and [s.upper()]. *)
Definition lower : string -> string := map_chars lower_char.
Definition upper : string -> string := map_chars upper_char.

(** [needle in hay] on two strings. *)
Fixpoint contains (needle hay : string) : bool :=
  prefix needle hay ||
  match hay with
  | EmptyString => false
  | String _ hay' => contains needle hay'
  end.

(** [sep.join(parts)] on strings. *)
Definition join (sep : string) (parts : list string) : string :=
  String.concat sep parts.

Fixpoint has_char (c : ascii) (s : string) : bool :=
  match s with
  | EmptyString => false
  | String d s' => Ascii.eqb c d || has_char c s'
  end.

Definition hex_digit (n : nat) : ascii :=
  if (n <? 10)%nat then ascii_of_nat (48 + n) else ascii_of_nat (87 + n).

(** One character of [repr(s)], [q] being the quote chosen. *)
Definition repr_char (q c : ascii) : string :=
  let n := nat_of_ascii c in
  if Ascii.eqb c q || Ascii.eqb c backslash then String backslash (String c EmptyString)
  else if (n =? 9)%nat then String backslash "t"
  else if (n =? 10)%nat then String backslash "n"
  else if (n =? 13)%nat then String backslash "r"
  else if (n <? 32)%nat || (n =? 127)%nat then
    String backslash (String "x" (String (hex_digit (n / 16)) (String (hex_digit (n mod 16)) EmptyString)))
  else String c EmptyString.

Fixpoint repr_chars (q : ascii) (s : string) : string :=
  match s with
  | EmptyString => EmptyString
  | String c s' => repr_char q c ++ repr_chars q s'
  end.

(** [repr(s)]: single quotes, unless [s] has a single quote and no
    double quote. *)
Definition repr (s : string) : string :=
  let q := if has_char squote s && negb (has_char dquote s) then dquote else squote in
  String q (repr_chars q s ++ String q EmptyString).

(** [str(n)] for an [int]. *)
Definition of_Z (n : Z) : string := NilZero.string_of_int (Z.to_int n).

End PyStr.

(* ================================================================== *)
(** ** The fragment of [re] the chatbot uses *)

Module Re.

Inductive regex : Type :=
| Eps
| Chr (c : ascii)
| Cls (p : ascii -> bool)
| Bnd
| Cat (r1 r2 : regex)
| Opt (r : regex)
| Star (p : ascii -> bool)
| Grp (r : regex).

(** A position in the subject: the character before it, its offset, what
    remains, and the text of group 1 once it has been closed. *)
Record cursor : Type := mkCursor
  { prev : option ascii; pos : nat; rest : string; cap : option string }.

Definition word_opt (c : option ascii) : bool :=
  match c with Some a => PyStr.is_word a | None => false end.

Definition next (s : string) : option ascii :=
  match s with String a _ => Some a | EmptyString => None end.

(** [\b]: exactly one side is a word character. *)
Definition at_boundary (c : cursor) : bool :=
  xorb (word_opt (prev c)) (word_opt (next (rest c))).

Definition step (c : cursor) (p : ascii -> bool) : option cursor :=
  match rest c with
  | String a s => if p a then Some (mkCursor (Some a) (S (pos c)) s (cap c)) else None
  | EmptyString => None
  end.

(** Greedy repetition of a class: the longest run first, then shorter. *)
Fixpoint star {A : Type} (p : ascii -> bool) (pv : option ascii) (n : nat)
         (g : option string) (s : string) (k : cursor -> option A) : option A :=
  match s with
  | String a s' =>
      if p a then
        match star p (Some a) (S n) g s' k with
        | Some x => Some x
        | None => k (mkCursor pv n s g)
        end
      else k (mkCursor pv n s g)
  | EmptyString => k (mkCursor pv n s g)
  end.

(** Backtracking matcher in continuation-passing style. *)
Fixpoint run {A : Type} (r : regex) (c : cursor) (k : cursor -> option A) : option A :=
  match r with
  | Eps => k c
  | Chr a => match step c (Ascii.eqb a) with Some c' => k c' | None => None end
  | Cls p => match step c p with Some c' => k c' | None => None end
  | Bnd => if at_boundary c then k c else None
  | Cat r1 r2 => run r1 c (fun c' => run r2 c' k)
  | Opt r1 => match run r1 c k with Some x => Some x | None => k c end
  | Star p => star p (prev c) (pos c) (cap c) (rest c) k
  | Grp r1 =>
      run r1 c (fun c' =>
        k (mkCursor (prev c') (pos c') (rest c')
                    (Some (substring 0 (pos c' - pos c) (rest c)))))
  end.

(** A match object: [start()], [end()], [group()] and [group(1)]. *)
Record match_obj : Type := mkMatch
  { m_start : nat; m_end : nat; group0 : string; group1 : option string }.

Definition match_at (r : regex) (pv : option ascii) (n : nat) (s : string)
  : option match_obj :=
  run r (mkCursor pv n s None)
      (fun c' => Some (mkMatch n (pos c') (substring 0 (pos c' - n) s) (cap c'))).

Fixpoint search_from (r : regex) (pv : option ascii) (n : nat) (s : string)
  : option match_obj :=
  match match_at r pv n s with
  | Some m => Some m
  | None =>
      match s with
      | String a s' => search_from r (Some a) (S n) s'
      | EmptyString => None
      end
  end.

(** [re.search(r, s)]: the leftmost match. *)
Definition search (r : regex) (s : string) : option match_obj :=
  search_from r None 0 s.

(** Every position at which [r] matches, with the match found there. *)
Fixpoint matches_from (r : regex) (pv : option ascii) (n : nat) (s : string)
  : list match_obj :=
  ((match match_at r pv n s with Some m => [m] | None => [] end) ++
   match s with
   | String a s' => matches_from r (Some a) (S n) s'
   | EmptyString => []
   end)%list.

Definition all_matches (r : regex) (s : string) : list match_obj :=
  matches_from r None 0 s.

Fixpoint lit (s : string) : regex :=
  match s with
  | EmptyString => Eps
  | String a s' => Cat (Chr a) (lit s')
  end.

Fixpoint seq (rs : list regex) : regex :=
  match rs with
  | [] => Eps
  | r :: rs' => Cat r (seq rs')
  end.

Fixpoint times (n : nat) (r : regex) : regex :=
  match n with
  | O => Eps
  | S n' => Cat r (times n' r)
  end.

Definition digit : regex := Cls PyStr.is_digit.
Definition upper_or_amp (c : ascii) : bool :=
  PyStr.is_upper c || Ascii.eqb c "&"%char.

(** [r'\bsem(?:ester)?\s*(\d+)\b'] *)
Definition semester_pattern : regex :=
  seq [Bnd; lit "sem"; Opt (lit "ester"); Star PyStr.is_space;
       Grp (Cat digit (Star PyStr.is_digit)); Bnd].

(** [r'\b\d{2}[A-Z&]{2,}\d{4}[A-Z]?\b'] *)
Definition course_code_pattern : regex :=
  seq [Bnd; times 2 digit; times 2 (Cls upper_or_amp); Star upper_or_amp;
       times 4 digit; Opt (Cls PyStr.is_upper); Bnd].

End Re.

(* ================================================================== *)
(** ** Python values, exceptions and the built-ins the program calls *)

Module Py.

(** A float, as far as this program observes one. *)
Record pyfloat : Type := mkFloat { float_truth : bool; float_repr : string }.

(** What [json.load] returns. *)
Inductive json : Type :=
| JNull
| JBool (b : bool)
| JInt (n : Z)
| JFloat (f : pyfloat)
| JStr (s : string)
| JList (l : list json)
| JDict (d : list (string * json)).

(** The exceptions that can leave the modelled code.  [ValueError] is
    the one the chatbot raises itself; [External] is an error raised by
    a collaborator, with its [str]. *)
Inductive exn : Type :=
| KeyError (key : string)
| TypeError
| AttributeError
| IndexError
| ValueError (msg : string)
| External (msg : string).

Inductive result (A : Type) : Type :=
| Ok (a : A)
| Raise (e : exn).
Arguments Ok {A} a.
Arguments Raise {A} e.

Definition bind {A B : Type} (r : result A) (k : A -> result B) : result B :=
  match r with
  | Ok a => k a
  | Raise e => Raise e
  end.

Fixpoint lookup {V : Type} (k : string) (d : list (string * V)) : option V :=
  match d with
  | [] => None
  | (k', v) :: d' => if String.eqb k k' then Some v else lookup k d'
  end.

(** [bool(v)] *)
Definition truthy (v : json) : bool :=
  match v with
  | JNull => false
  | JBool b => b
  | JInt n => negb (Z.eqb n 0)
  | JFloat f => float_truth f
  | JStr s => negb (String.eqb s EmptyString)
  | JList l => match l with [] => false | _ => true end
  | JDict d => match d with [] => false | _ => true end
  end.

(** [repr(v)] *)
Fixpoint repr (v : json) : string :=
  match v with
  | JNull => "None"
  | JBool true => "True"
  | JBool false => "False"
  | JInt n => PyStr.of_Z n
  | JFloat f => float_repr f
  | JStr s => PyStr.repr s
  | JList l => "[" ++ PyStr.join ", " (map repr l) ++ "]"
  | JDict d =>
      "{" ++ PyStr.join ", "
               (map (fun kv => match kv with
                               | (k, x) => PyStr.repr k ++ ": " ++ repr x
                               end) d) ++ "}"
  end.

(** [str(v)], which is also how an f-string renders [{v}]. *)
Definition str (v : json) : string :=
  match v with
  | JStr s => s
  | _ => repr v
  end.

(** [v[k]] for a string key. *)
Definition getitem (v : json) (k : string) : result json :=
  match v with
  | JDict d => match lookup k d with Some x => Ok x | None => Raise (KeyError k) end
  | _ => Raise TypeError
  end.

(** [v.get(k, default)] *)
Definition get (v : json) (k : string) (default : json) : result json :=
  match v with
  | JDict d => Ok (match lookup k d with Some x => x | None => default end)
  | _ => Raise AttributeError
  end.

Fixpoint chars (s : string) : list json :=
  match s with
  | EmptyString => []
  | String c s' => JStr (String c EmptyString) :: chars s'
  end.

(** [iter(v)]: the items a [for] loop or [join] visits. *)
Definition iter (v : json) : result (list json) :=
  match v with
  | JList l => Ok l
  | JDict d => Ok (map (fun kv => JStr (fst kv)) d)
  | JStr s => Ok (chars s)
  | _ => Raise TypeError
  end.

(** The strings of a list, or [TypeError] at the first item that is not
    a [str]. *)
Fixpoint strings (l : list json) : result (list string) :=
  match l with
  | [] => Ok []
  | JStr s :: l' => bind (strings l') (fun ss => Ok (s :: ss))
  | _ :: _ => Raise TypeError
  end.

(** [sep.join(items)] on a list object. *)
Definition join_items (sep : string) (l : list json) : result string :=
  bind (strings l) (fun ss => Ok (PyStr.join sep ss)).

(** [sep.join(v)] *)
Definition join (sep : string) (v : json) : result string :=
  bind (iter v) (join_items sep).

(** [hash(v)], as far as it can fail. *)
Definition hashable (v : json) : result unit :=
  match v with
  | JList _ | JDict _ => Raise TypeError
  | _ => Ok tt
  end.

(** [len(v)] *)
Definition len (v : json) : result nat :=
  match v with
  | JList l => Ok (List.length l)
  | JDict d => Ok (List.length d)
  | JStr s => Ok (String.length s)
  | _ => Raise TypeError
  end.

Definition is_list (v : json) : bool :=
  match v with JList _ => true | _ => false end.
Definition is_dict (v : json) : bool :=
  match v with JDict _ => true | _ => false end.

(** [v[:n]]; for a dictionary the kind of the error depends on the Python
    version, and nothing below relies on it. *)
Definition slice_to (n : nat) (v : json) : result json :=
  match v with
  | JList l => Ok (JList (firstn n l))
  | JStr s => Ok (JStr (substring 0 n s))
  | _ => Raise TypeError
  end.

End Py.
Export Py.

Declare Scope py_scope.
Delimit Scope py_scope with py.
Notation "x <- e ;; k" := (Py.bind e (fun x => k))
  (at level 61, e at next level, right associativity) : py_scope.

Local Open Scope py_scope.

(* ================================================================== *)
(** ** chatbot_script.py: the state of [EnhancedSyllabusRAGChatbot] *)

(** An entry of [self.chunks_data]. *)
Record chunk : Type := mkChunk
  { content : string; metadata : json; chunk_type : string }.

(** An entry of a list of [self.semester_course_map]. *)
Record course_summary : Type := mkSummary
  { course_code : json; course_name : json; credits : json; category : json }.

(** What [collection.query] returns, as far as [retrieve_context] reads it. *)
Record query_result : Type := mkQueryResult
  { documents : list (list string);
    metadatas : list (list json);
    distances : list (list pyfloat) }.

(** What a call to a collaborator does: it returns, or it raises an
    exception [e], of which [str(e)] is kept. *)
Inductive reply (A : Type) : Type :=
| Returned (a : A)
| Failed (error_message : string).
Arguments Returned {A} a.
Arguments Failed {A} error_message.

Definition call {A : Type} (r : reply A) : result A :=
  match r with
  | Returned a => Ok a
  | Failed msg => Raise (External msg)
  end.

(** A vector collection: its [query] method. *)
Record collection_t : Type := mkCollection
  { coll_query : list (list pyfloat) -> Z -> reply query_result }.

(** [model] is [self.model.generate_content(prompt).text] and
    [embedding_model] is [self.embedding_model.encode(texts).tolist()]. *)
Record chatbot : Type := mkChatbot
  { model : string -> reply string;
    embedding_model : list string -> reply (list (list pyfloat));
    collection : option collection_t;
    chunks_data : list chunk;
    faq_data : json;
    concept_mapping : json;
    course_details : list (json * json);
    semester_course_map : list (string * list course_summary) }.

(** [__init__]: no collection and empty data stores. *)
Definition init (m : string -> reply string)
           (e : list string -> reply (list (list pyfloat))) : chatbot :=
  mkChatbot m e None [] (JList []) (JDict []) [] [].

Definition set_chunks_data (v : list chunk) (st : chatbot) : chatbot :=
  mkChatbot (model st) (embedding_model st) (collection st) v (faq_data st)
            (concept_mapping st) (course_details st) (semester_course_map st).
Definition set_faq_data (v : json) (st : chatbot) : chatbot :=
  mkChatbot (model st) (embedding_model st) (collection st) (chunks_data st) v
            (concept_mapping st) (course_details st) (semester_course_map st).
Definition set_concept_mapping (v : json) (st : chatbot) : chatbot :=
  mkChatbot (model st) (embedding_model st) (collection st) (chunks_data st)
            (faq_data st) v (course_details st) (semester_course_map st).
Definition set_course_details (v : list (json * json)) (st : chatbot) : chatbot :=
  mkChatbot (model st) (embedding_model st) (collection st) (chunks_data st)
            (faq_data st) (concept_mapping st) v (semester_course_map st).
Definition set_semester_course_map (v : list (string * list course_summary))
           (st : chatbot) : chatbot :=
  mkChatbot (model st) (embedding_model st) (collection st) (chunks_data st)
            (faq_data st) (concept_mapping st) (course_details st) v.

(** A method that mutates [self]: the outcome and the state reached, which
    keeps what was written before an exception. *)
Definition M (A : Type) : Type := chatbot -> result A * chatbot.

Definition ret {A : Type} (a : A) : M A := fun st => (Ok a, st).
Definition lift {A : Type} (r : result A) : M A := fun st => (r, st).
Definition modify (f : chatbot -> chatbot) : M unit := fun st => (Ok tt, f st).
Definition read {A : Type} (f : chatbot -> A) : M A := fun st => (Ok (f st), st).
Definition bindM {A B : Type} (m : M A) (k : A -> M B) : M B :=
  fun st => match m st with
            | (Ok a, st') => k a st'
            | (Raise e, st') => (Raise e, st')
            end.

Declare Scope m_scope.
Delimit Scope m_scope with M.
Notation "x <~ e ;; k" := (bindM e (fun x => k))
  (at level 61, e at next level, right associativity) : m_scope.
Notation "e ;;; k" := (bindM e (fun _ => k))
  (at level 61, right associativity) : m_scope.

Fixpoint for_each {A : Type} (l : list A) (body : A -> M unit) : M unit :=
  match l with
  | [] => ret tt
  | x :: l' => bindM (body x) (fun _ => for_each l' body)
  end.

(** [self.chunks_data.append(c)] *)
Definition append_chunk (c : chunk) : M unit :=
  modify (fun st => set_chunks_data (chunks_data st ++ [c])%list st).

(* ------------------------------------------------------------------ *)
(** *** [load_data] *)

(** [{course['metadata']['course_code']: course for course in data}], kept
    in the order of the comprehension. *)
Fixpoint course_details_of (courses : list json) : result (list (json * json)) :=
  match courses with
  | [] => Ok []
  | course :: courses' =>
      md <- getitem course "metadata" ;;
      code <- getitem md "course_code" ;;
      _ <- hashable code ;;
      tl <- course_details_of courses' ;;
      Ok ((code, course) :: tl)
  end.

(** [self.course_details[code]] for a [str] key: the dictionary holds the
    last course stored under it. *)
Fixpoint details_lookup (code : string) (d : list (json * json)) : option json :=
  match d with
  | [] => None
  | (k, course) :: d' =>
      match details_lookup code d' with
      | Some later => Some later
      | None => match k with
                | JStr s => if String.eqb code s then Some course else None
                | _ => None
                end
      end
  end.

(** [if semester not in m: m[semester] = []] *)
Definition ensure_semester (sem : string) (m : list (string * list course_summary))
  : list (string * list course_summary) :=
  match lookup sem m with
  | Some _ => m
  | None => (m ++ [(sem, [])])%list
  end.

(** [m[semester].append(entry)] *)
Fixpoint append_course (sem : string) (entry : course_summary)
         (m : list (string * list course_summary))
  : list (string * list course_summary) :=
  match m with
  | [] => []
  | (k, l) :: m' =>
      if String.eqb sem k then (k, (l ++ [entry])%list) :: m'
      else (k, l) :: append_course sem entry m'
  end.

(** One syllabus unit [item] of a course: the body of the inner loop. *)
Definition load_unit (metadata : json) (name code : json) (item : json) : M unit :=
  (if negb (is_dict item) then ret tt
   else
     topics <~ lift (get item "topics" (JStr "Not specified")) ;;
     unit_topics <~ lift (if is_list topics
                          then (s <- join ", " topics ;; Ok (JStr s))
                          else Ok topics) ;;
     number <~ lift (get item "unit_number" (JStr EmptyString)) ;;
     title <~ lift (get item "title" (JStr "N/A")) ;;
     append_chunk
       (mkChunk ("Syllabus for " ++ str name ++ " (" ++ str code ++ "), Unit "
                 ++ str number ++ " titled '" ++ str title ++ "': "
                 ++ str unit_topics)
                metadata "syllabus_unit"))%M.

(** [', '.join(v) if v else 'None listed'] *)
Definition listed (v : json) : result string :=
  if truthy v then join ", " v else Ok "None listed".

(** [self.semester_course_map]: the course is added under its semester. *)
Definition register_course (metadata : json) (semester : string) (name code : json)
  : M unit :=
  (modify (fun st =>
     set_semester_course_map (ensure_semester semester (semester_course_map st)) st) ;;;
   cr <~ lift (get metadata "credits" (JStr "N/A")) ;;
   cat <~ lift (get metadata "category" (JStr "N/A")) ;;
   modify (fun st =>
     set_semester_course_map
       (append_course semester (mkSummary code name cr cat) (semester_course_map st)) st))%M.

(** The overview chunk of a course. *)
Definition overview_chunk (metadata : json) (semester : string) (name code : json)
  : M unit :=
  (cat <~ lift (get metadata "category" (JStr "N/A")) ;;
   cr <~ lift (get metadata "credits" (JStr "N/A")) ;;
   prereq <~ lift (get metadata "prerequisites" (JStr "Not specified")) ;;
   append_chunk
     (mkChunk ("Course Overview for " ++ str name ++ " (" ++ str code ++ "): "
               ++ "This is a Semester " ++ semester ++ " '" ++ str cat
               ++ "' course with " ++ str cr ++ " credits. "
               ++ "Prerequisites: " ++ str prereq ++ ".")
              metadata "overview"))%M.

Definition outcomes_prefix (name code : json) : string :=
  "The course outcomes for " ++ str name ++ " (" ++ str code ++ ") are: ".

(** The dedicated chunk for the course outcomes. *)
Definition outcomes_chunk (metadata : json) (name code : json) : M unit :=
  (outcomes <~ lift (get metadata "course_outcomes" (JList [])) ;;
   if truthy outcomes && is_list outcomes then
     joined <~ lift (join "; " outcomes) ;;
     append_chunk (mkChunk (outcomes_prefix name code ++ joined) metadata "outcomes")
   else ret tt)%M.

(** One chunk for each syllabus unit. *)
Definition syllabus_chunks (course metadata : json) (name code : json) : M unit :=
  (syllabus <~ lift (get course "syllabus" (JList [])) ;;
   units <~ lift (iter syllabus) ;;
   for_each units (load_unit metadata name code))%M.

(** The chunk for textbooks and references. *)
Definition books_chunk (course metadata : json) (name code : json) : M unit :=
  (books <~ lift (get course "books" (JDict [])) ;;
   textbooks <~ lift (get books "textbooks" (JList [])) ;;
   ref_books <~ lift (get books "reference_books" (JList [])) ;;
   if truthy textbooks || truthy ref_books then
     t <~ lift (listed textbooks) ;;
     r <~ lift (listed ref_books) ;;
     append_chunk
       (mkChunk ("Reading materials for " ++ str name ++ " (" ++ str code ++ "). "
                 ++ "Textbooks: " ++ t ++ ". "
                 ++ "Reference Books: " ++ r ++ ".")
                metadata "books")
   else ret tt)%M.

(** The body of the loop over [restructured_data]. *)
Definition load_course (course : json) : M unit :=
  (metadata <~ lift (get course "metadata" (JDict [])) ;;
   code <~ lift (get metadata "course_code" JNull) ;;
   name <~ lift (get metadata "course_name" JNull) ;;
   semester <~ lift (get metadata "semester" JNull) ;;
   if negb (truthy code && truthy name && truthy semester) then ret tt
   else
     let semester := str semester in
     register_course metadata semester name code ;;;
     overview_chunk metadata semester name code ;;;
     outcomes_chunk metadata name code ;;;
     syllabus_chunks course metadata name code ;;;
     books_chunk course metadata name code)%M.

(** [load_data], from the decoded syllabus file and the decoded
    optimization file ([None] when that file does not exist). *)
Definition load_data (restructured_data : json) (optimization_data : option json)
  : M unit :=
  (courses <~ lift (iter restructured_data) ;;
   details <~ lift (course_details_of courses) ;;
   modify (set_course_details details) ;;;
   for_each courses load_course ;;;
   match optimization_data with
   | Some data =>
       faq <~ lift (get data "faq_dataset" (JList [])) ;;
       modify (set_faq_data faq) ;;;
       cm <~ lift (get data "concept_mapping" (JDict [])) ;;
       modify (set_concept_mapping cm)
   | None =>
       modify (set_faq_data (JList [])) ;;;
       modify (set_concept_mapping (JDict []))
   end ;;;
   faq <~ read faq_data ;;
   _ <~ lift (len faq) ;;
   ret tt)%M.

(* ------------------------------------------------------------------ *)
(** *** [enhance_query] *)

(** The course names of the semester named by the first semester
    reference of the lowercased query. *)
Definition semester_terms (st : chatbot) (query_lower : string) : list json :=
  match Re.search Re.semester_pattern query_lower with
  | Some sem_match =>
      match Re.group1 sem_match with
      | Some sem_num =>
          match lookup sem_num (semester_course_map st) with
          | Some courses => map course_name courses
          | None => []
          end
      | None => []
      end
  | None => []
  end.

(** The name of the course whose code is the first code-shaped token of
    the uppercased query. *)
Definition course_code_terms (st : chatbot) (query : string) : result (list json) :=
  match Re.search Re.course_code_pattern (PyStr.upper query) with
  | Some m =>
      match details_lookup (Re.group0 m) (course_details st) with
      | Some course =>
          md <- getitem course "metadata" ;;
          name <- get md "course_name" (JStr EmptyString) ;;
          Ok [name]
      | None => Ok []
      end
  | None => Ok []
  end.

(** [v.items()] *)
Definition items (v : json) : result (list (string * json)) :=
  match v with
  | JDict d => Ok d
  | _ => Raise AttributeError
  end.

(** The loop over [self.concept_mapping.items()], [terms] being
    [enhanced_terms] on entry. *)
Fixpoint concept_terms (mapping : list (string * json)) (query_lower : string)
         (terms : list json) : result (list json) :=
  match mapping with
  | [] => Ok terms
  | (concept, courses) :: mapping' =>
      if PyStr.contains (PyStr.lower concept) query_lower then
        first_two <- slice_to 2 courses ;;
        extra <- iter first_two ;;
        concept_terms mapping' query_lower (terms ++ extra)%list
      else concept_terms mapping' query_lower terms
  end.

Definition enhance_query (st : chatbot) (query : string) : result string :=
  let query_lower := PyStr.lower query in
  let terms1 := semester_terms st query_lower in
  terms2 <- course_code_terms st query ;;
  mapping <- items (concept_mapping st) ;;
  enhanced_terms <- concept_terms mapping query_lower (terms1 ++ terms2)%list ;;
  match enhanced_terms with
  | [] => Ok query
  | _ :: _ =>
      joined <- join_items " " enhanced_terms ;;
      Ok (query ++ " " ++ joined)
  end.

(* ------------------------------------------------------------------ *)
(** *** [retrieve_context] *)

(** A retrieved document. *)
Record doc : Type := mkDoc
  { doc_content : string; doc_metadata : json; distance : pyfloat }.

(** [l[0]] *)
Definition first {A : Type} (l : list A) : result A :=
  match l with
  | x :: _ => Ok x
  | [] => Raise IndexError
  end.

Fixpoint zip3 (ds : list string) (ms : list json) (xs : list pyfloat) : list doc :=
  match ds, ms, xs with
  | d :: ds', m :: ms', x :: xs' => mkDoc d m x :: zip3 ds' ms' xs'
  | _, _, _ => []
  end.

Definition not_initialized : exn := ValueError "Vector store not initialized.".

Definition retrieve_context (st : chatbot) (query : string) (n_results : Z)
  : result (list doc) :=
  match collection st with
  | None => Raise not_initialized
  | Some coll =>
      enhanced_query <- enhance_query st query ;;
      query_embedding <- call (embedding_model st [enhanced_query]) ;;
      results <- call (coll_query coll query_embedding n_results) ;;
      ds <- first (documents results) ;;
      ms <- first (metadatas results) ;;
      xs <- first (distances results) ;;
      Ok (zip3 ds ms xs)
  end.

(* ------------------------------------------------------------------ *)
(** *** [generate_enhanced_response] *)

Fixpoint context_parts (context_docs : list doc) : result (list string) :=
  match context_docs with
  | [] => Ok []
  | d :: ds =>
      source <- get (doc_metadata d) "source" (JStr "unknown") ;;
      code <- get (doc_metadata d) "course_code" (JStr "N/A") ;;
      tl <- context_parts ds ;;
      Ok (("Context Snippet (Source: " ++ str source ++ ", Course: " ++ str code
           ++ "):" ++ PyStr.nl ++ doc_content d) :: tl)
  end.

Definition default_prompt (context_text query : string) : string :=
  PyStr.join PyStr.nl
    [ "You are a precise and helpful academic assistant for a university syllabus. Your task is to answer the student's question concisely based ONLY on the provided context.";
      EmptyString;
      "        Context Information:";
      "        ---";
      "        " ++ context_text;
      "        ---";
      EmptyString;
      "        Student's Question: " ++ query;
      EmptyString;
      "        Instructions:";
      "        1. Synthesize a coherent, friendly answer from the provided context. Do not just list the raw snippets.";
      "        2. If the context contains a list of courses, present them clearly in a list format.";
      "        3. If specific details like textbooks, prerequisites, or outcomes are available in the context, integrate them naturally into your response.";
      "        4. If the information to answer the question is NOT in the context, you MUST explicitly state that you cannot find the information in the provided documents.";
      "        5. Be direct and clear in your response.";
      EmptyString;
      "        Answer:" ].

Definition syllabus_prompt (context_text query : string) : string :=
  PyStr.join PyStr.nl
    [ "You are a precise academic assistant. A student is asking specifically for the syllabus for a course. Based ONLY on the provided context, answer their question.";
      EmptyString;
      "            Context Information:";
      "            ---";
      "            " ++ context_text;
      "            ---";
      EmptyString;
      "            Student's Question: " ++ query;
      EmptyString;
      "            Instructions:";
      "            1. Find the syllabus units and topics in the context.";
      "            2. List ONLY the syllabus units with their topics. Format them clearly with unit numbers and titles.";
      "            3. CRITICAL: Do NOT include the Course Overview, prerequisites, course outcomes, credits, or book recommendations in your answer.";
      "            4. If the syllabus unit information is not available in the context, explicitly state that.";
      EmptyString;
      "            Answer:" ].

Definition other_topics : list string :=
  ["book"; "overview"; "credit"; "outcome"; "prerequisite"].

(** The test that guards the focused prompt. *)
Definition asks_syllabus_only (query : string) : bool :=
  let query_lower := PyStr.lower query in
  PyStr.contains "syllabus" query_lower
  && negb (existsb (fun keyword => PyStr.contains keyword query_lower) other_topics).

(** The prompt sent to the model. *)
Definition compose_prompt (query : string) (context_text : string) : string :=
  let prompt := default_prompt context_text query in
  if asks_syllabus_only query then syllabus_prompt context_text query else prompt.

Definition api_key_message : string :=
  "Sorry, there is an issue with the server's API key configuration. Please contact the administrator.".

Definition error_prefix : string :=
  "Sorry, I encountered an error generating the response: ".

Definition generate_enhanced_response (st : chatbot) (query : string)
           (context_docs : list doc) : result string :=
  parts <- context_parts context_docs ;;
  let context_text := PyStr.join (PyStr.nl ++ "---" ++ PyStr.nl) parts in
  let prompt := compose_prompt query context_text in
  match model st prompt with
  | Returned text => Ok text
  | Failed error_message =>
      if PyStr.contains "API key not valid" error_message
      then Ok api_key_message
      else Ok (error_prefix ++ error_message)
  end.

(* ------------------------------------------------------------------ *)
(** *** [chat] *)

(** The generator expression inside [set(...)]. *)
Fixpoint course_labels (context_docs : list doc) : result (list string) :=
  match context_docs with
  | [] => Ok []
  | d :: ds =>
      code <- get (doc_metadata d) "course_code" JNull ;;
      if truthy code then
        code' <- get (doc_metadata d) "course_code" JNull ;;
        name <- get (doc_metadata d) "course_name" JNull ;;
        tl <- course_labels ds ;;
        Ok ((str code' ++ " - " ++ str name) :: tl)
      else course_labels ds
  end.

(** [list(set(xs))] up to the order of the result, which [sorted] fixes. *)
Definition distinct (xs : list string) : list string := nodup string_dec xs.

Fixpoint insert_sorted (x : string) (l : list string) : list string :=
  match l with
  | [] => [x]
  | y :: l' => if String.leb x y then x :: l else y :: insert_sorted x l'
  end.

(** [sorted(xs)] on strings. *)
Fixpoint sorted (xs : list string) : list string :=
  match xs with
  | [] => []
  | x :: xs' => insert_sorted x (sorted xs')
  end.

Record chat_result : Type := mkChatResult
  { query : string; answer : string; context_used : nat;
    relevant_courses : list string }.

Definition chat (st : chatbot) (q : string) (n_context : Z) : result chat_result :=
  context_docs <- retrieve_context st q n_context ;;
  response <- generate_enhanced_response st q context_docs ;;
  labels <- course_labels context_docs ;;
  Ok (mkChatResult q response (List.length context_docs) (sorted (distinct labels))).

(* ================================================================== *)
(** ** app.py: follow-up questions *)

Module App.

(** A value [ast.literal_eval] can return, as far as the caller tells
    such values apart: a [str], a [list], or anything else. *)
Inductive literal : Type :=
| LStr (s : string)
| LList (elements : list literal)
| LOther.

(** The module's global retriever ([None] until the RAG chain is
    initialised; [get_relevant_documents] gives the page contents), the
    chat model ([llm.invoke(prompt).content]) and [ast.literal_eval]. *)
Record services : Type := mkServices
  { vector_store_retriever : option (string -> reply (list string));
    llm_invoke : string -> reply string;
    literal_eval : string -> reply literal }.

(** An item of [chat_history], a [Dict[str, str]]. *)
Definition turn : Type := list (string * string).

Definition get_default_questions : list string :=
  [ "What courses are offered in Engineering?";
    "What is the fee for an MBA?";
    "What are the eligibility criteria for B.Tech?";
    "Tell me about the scholarship policy";
    "How do I apply for a Ph.D.?" ].

(** [item[k]] on a turn. *)
Definition turn_item (item : turn) (k : string) : result string :=
  match lookup k item with
  | Some v => Ok v
  | None => Raise (KeyError k)
  end.

(** [next((item['message'] for item in reversed_history
           if item['type'] == 'user'), None)] *)
Fixpoint first_user_message (reversed_history : list turn) : result (option string) :=
  match reversed_history with
  | [] => Ok None
  | item :: older =>
      ty <- turn_item item "type" ;;
      if String.eqb ty "user" then
        message <- turn_item item "message" ;;
        Ok (Some message)
      else first_user_message older
  end.

Definition followup_prompt (context : string) : string :=
  let q := String PyStr.dquote EmptyString in
  PyStr.join PyStr.nl
    [ EmptyString;
      "    Based on the provided context from a university admissions guide, suggest 4 short, relevant follow-up questions a prospective student might ask next.";
      "    CRITICAL: The questions MUST be answerable using ONLY the information in the context below. Do not suggest questions if the answer is not in the text.";
      "    Return ONLY a Python-parseable list of strings. For example: [" ++ q ++ "Question 1?" ++ q ++ ", " ++ q ++ "Question 2?" ++ q ++ ", " ++ q ++ "Question 3?" ++ q ++ ", " ++ q ++ "Question 4?" ++ q ++ "]";
      EmptyString;
      "    Context:";
      "    ---";
      "    " ++ context;
      "    ---";
      EmptyString;
      "    Suggested Questions (Python list of strings):";
      "    " ].

(** The elements of a list when all of them are [str]. *)
Fixpoint all_str (elements : list literal) : option (list string) :=
  match elements with
  | [] => Some []
  | LStr s :: rest => option_map (cons s) (all_str rest)
  | _ :: _ => None
  end.

(** The [try] block: every exception raised inside it is caught. *)
Definition suggest_from (sv : services) (prompt_template : string) : list string :=
  match llm_invoke sv prompt_template with
  | Returned response_content =>
      match literal_eval sv response_content with
      | Returned (LList elements) =>
          match all_str elements with
          | Some suggested_questions => suggested_questions
          | None => get_default_questions
          end
      | Returned _ => get_default_questions
      | Failed _ => get_default_questions
      end
  | Failed _ => get_default_questions
  end.

Definition generate_followup_questions (sv : services) (chat_history : list turn)
  : result (list string) :=
  match chat_history, vector_store_retriever sv with
  | [], _ | _, None => Ok get_default_questions
  | _ :: _, Some get_relevant_documents =>
      last_user_message <- first_user_message (rev chat_history) ;;
      match last_user_message with
      | None | Some EmptyString => Ok get_default_questions
      | Some message =>
          relevant_docs <- call (get_relevant_documents message) ;;
          let context := PyStr.join (PyStr.nl ++ PyStr.nl) relevant_docs in
          Ok (suggest_from sv (followup_prompt context))
      end
  end.

End App.

(* ================================================================== *)
(** ** chatbot_script.py: building the vector store *)

(** [d[k] = v] on the items of a dictionary: the value of an existing key
    is replaced where it stands, a new key goes last. *)
Fixpoint dict_set (k : string) (v : json) (d : list (string * json))
  : list (string * json) :=
  match d with
  | [] => [(k, v)]
  | (k', v') :: d' =>
      if String.eqb k k' then (k, v) :: d' else (k', v') :: dict_set k v d'
  end.

(** [v is None] *)
Definition is_none (v : json) : bool :=
  match v with JNull => true | _ => false end.

(** [metadata_cleaned] of a chunk, with its two added keys. *)
Definition clean_metadata (c : chunk) : result (list (string * json)) :=
  pairs <- items (metadata c) ;;
  let metadata_cleaned :=
    map (fun kv => (fst kv, JStr (str (snd kv))))
        (filter (fun kv => negb (is_none (snd kv))) pairs) in
  Ok (dict_set "source" (JStr "syllabus")
        (dict_set "chunk_type" (JStr (chunk_type c)) metadata_cleaned)).

(** The three lists [documents], [metadatas] and [ids]. *)
Record rows : Type := mkRows
  { row_documents : list string;
    row_metadatas : list (list (string * json));
    row_ids : list string }.

(** The three [append] calls of one loop iteration. *)
Definition add_row (document : string) (meta : list (string * json)) (id : string)
           (r : rows) : rows :=
  mkRows (row_documents r ++ [document])%list
         (row_metadatas r ++ [meta])%list
         (row_ids r ++ [id])%list.

(** [f"{prefix}{i}"] *)
Definition numbered (prefix : string) (i : nat) : string :=
  prefix ++ PyStr.of_Z (Z.of_nat i).

(** The loop over [enumerate(self.chunks_data)], from index [i]. *)
Fixpoint chunk_rows (i : nat) (chunks : list chunk) (r : rows) : result rows :=
  match chunks with
  | [] => Ok r
  | c :: chunks' =>
      meta <- clean_metadata c ;;
      chunk_rows (S i) chunks' (add_row (content c) meta (numbered "chunk_" i) r)
  end.

Definition course_line (c : course_summary) : string :=
  "- " ++ str (course_code c) ++ ": " ++ str (course_name c)
  ++ " (" ++ str (credits c) ++ " credits, " ++ str (category c) ++ ")".

Definition semester_content (semester : string) (courses : list course_summary)
  : string :=
  "The following courses are offered in Semester " ++ semester ++ ":" ++ PyStr.nl
  ++ PyStr.join PyStr.nl (map course_line courses).

Definition semester_metadata (semester : string) (courses : list course_summary)
  : list (string * json) :=
  [("semester", JStr semester);
   ("chunk_type", JStr "semester_summary");
   ("source", JStr "semester_map");
   ("total_courses", JStr (PyStr.of_Z (Z.of_nat (List.length courses))))].

(** The loop over [self.semester_course_map.items()]. *)
Fixpoint semester_rows (m : list (string * list course_summary)) (r : rows) : rows :=
  match m with
  | [] => r
  | (semester, courses) :: m' =>
      semester_rows m'
        (add_row (semester_content semester courses)
                 (semester_metadata semester courses)
                 ("semester_" ++ semester) r)
  end.

(** The loop over [enumerate(self.faq_data)], from index [i]. *)
Fixpoint faq_rows (i : nat) (faqs : list json) (r : rows) : result rows :=
  match faqs with
  | [] => Ok r
  | faq :: faqs' =>
      question <- getitem faq "question" ;;
      answer <- getitem faq "answer" ;;
      cat <- get faq "category" (JStr "general") ;;
      faq_rows (S i) faqs'
        (add_row ("Question: " ++ str question ++ " Answer: " ++ str answer)
                 [("category", cat); ("chunk_type", JStr "faq"); ("source", JStr "faq")]
                 (numbered "faq_" i) r)
  end.

(** The three lists as they stand before the batches are sent. *)
Definition build_rows (st : chatbot) : result rows :=
  r1 <- chunk_rows 0 (chunks_data st) (mkRows [] [] []) ;;
  let r2 := semester_rows (semester_course_map st) r1 in
  faqs <- iter (faq_data st) ;;
  faq_rows 0 faqs r2.

(** [range(start, stop, step)] for a positive step. *)
Definition range (start stop step : nat) : list nat :=
  map (fun k => start + k * step) (seq 0 ((stop - start + (step - 1)) / step)).

(** [l[i:j]] *)
Definition slice {A : Type} (i j : nat) (l : list A) : list A :=
  firstn (j - i) (skipn i l).

Definition batch_size : nat := 100.

(** A collection as [create_collection] returns it: what the chatbot
    queries later, and its [add] method. *)
Record store : Type := mkStore
  { store_collection : collection_t;
    store_add : list (list pyfloat) -> list string -> list (list (string * json))
                -> list string -> reply unit }.

(** [self.client] *)
Record vector_client : Type := mkClient
  { delete_collection : string -> reply unit;
    create_collection : string -> reply store }.

Definition set_collection (v : option collection_t) (st : chatbot) : chatbot :=
  mkChatbot (model st) (embedding_model st) v (chunks_data st) (faq_data st)
            (concept_mapping st) (course_details st) (semester_course_map st).

(** One iteration of the loop that sends the batches. *)
Definition send_batch (created : store) (r : rows) (i : nat) : M unit :=
  (let batch_docs := slice i (i + batch_size) (row_documents r) in
   let batch_meta := slice i (i + batch_size) (row_metadatas r) in
   let batch_ids := slice i (i + batch_size) (row_ids r) in
   encode <~ read embedding_model ;;
   embeddings <~ lift (call (encode batch_docs)) ;;
   lift (call (store_add created embeddings batch_docs batch_meta batch_ids)))%M.

(** [create_enhanced_vector_store]; an error of [delete_collection] is
    caught and dropped. *)
Definition create_enhanced_vector_store (client : vector_client)
           (collection_name : string) : M unit :=
  (match delete_collection client collection_name with
   | Returned _ | Failed _ =>
       created <~ lift (call (create_collection client collection_name)) ;;
       modify (set_collection (Some (store_collection created))) ;;;
       st <~ read (fun st => st) ;;
       r <~ lift (build_rows st) ;;
       for_each (range 0 (List.length (row_documents r)) batch_size)
                (send_batch created r)
   end)%M.

(* ================================================================== *)
(** ** chatbot_script.py: [setup_enhanced_chatbot] *)

Definition starts_with_sep (s : string) : bool :=
  match s with
  | String c _ => Ascii.eqb c "/"
  | EmptyString => false
  end.

Fixpoint ends_with_sep (s : string) : bool :=
  match s with
  | EmptyString => false
  | String c EmptyString => Ascii.eqb c "/"
  | String _ s' => ends_with_sep s'
  end.

(** One round of the loop of [os.path.join], as [posixpath] has it. *)
Definition join_step (path b : string) : string :=
  if starts_with_sep b then b
  else if String.eqb path EmptyString || ends_with_sep path then path ++ b
  else path ++ "/" ++ b.

(** [os.path.join(a, *p)] *)
Definition path_join (a : string) (p : list string) : string :=
  fold_left join_step p a.

(** [bool(regulation)] for an optional string. *)
Definition given (regulation : option string) : bool :=
  match regulation with
  | Some r => negb (String.eqb r EmptyString)
  | None => false
  end.

Definition or_else (regulation : option string) (default : string) : string :=
  match regulation with
  | Some r => if String.eqb r EmptyString then default else r
  | None => default
  end.

Definition data_path (data_root department : string) (regulation : option string)
  : string :=
  if given regulation
  then path_join data_root [department; or_else regulation EmptyString]
  else path_join data_root [department].

Definition collection_name_of (department : string) (regulation : option string)
  : string :=
  if given regulation
  then "syllabus_collection_" ++ department ++ "_" ++ or_else regulation EmptyString
  else "syllabus_collection_" ++ department.

(** What is raised above the chatbot: [FileNotFoundError], which the web
    layer tells apart, or any of the exceptions met so far. *)
Inductive failure : Type :=
| FileNotFoundError (msg : string)
| Exception (e : exn).

Inductive outcome (A : Type) : Type :=
| Done (a : A)
| Thrown (f : failure).
Arguments Done {A} a.
Arguments Thrown {A} f.

(** [open(path)] followed by [json.load]: no such file, a file that does
    not decode ([JSONDecodeError], a [ValueError]), or the decoded value. *)
Inductive file : Type :=
| Missing
| Garbled (msg : string)
| Decoded (data : json).

(** The surroundings of the chatbot: the file system, and the services
    [__init__] connects to (the model, the embedder, the vector client). *)
Record platform : Type := mkPlatform
  { path_exists : string -> bool;
    read_json : string -> file;
    connect : string -> reply ((string -> reply string)
                               * (list string -> reply (list (list pyfloat)))
                               * vector_client) }.

Definition no_such_file (path : string) : failure :=
  FileNotFoundError ("[Errno 2] No such file or directory: " ++ PyStr.repr path).

(** [load_data] up to the end of the loop over the courses. *)
Definition load_courses (restructured_data : json) : M unit :=
  (courses <~ lift (iter restructured_data) ;;
   details <~ lift (course_details_of courses) ;;
   modify (set_course_details details) ;;;
   for_each courses load_course)%M.

Definition thrown_or_done (r : result unit * chatbot) : outcome unit * chatbot :=
  match r with
  | (Ok u, st) => (Done u, st)
  | (Raise e, st) => (Thrown (Exception e), st)
  end.

(** [load_data] on the two paths. *)
Definition load_data_files (pf : platform) (syllabus_data_path optimization_path : string)
           (st : chatbot) : outcome unit * chatbot :=
  match read_json pf syllabus_data_path with
  | Missing => (Thrown (no_such_file syllabus_data_path), st)
  | Garbled msg => (Thrown (Exception (ValueError msg)), st)
  | Decoded data =>
      match read_json pf optimization_path with
      | Missing => thrown_or_done (load_data data None st)
      | Decoded optimization_data =>
          thrown_or_done (load_data data (Some optimization_data) st)
      | Garbled msg =>
          match load_courses data st with
          | (Ok _, st') => (Thrown (Exception (ValueError msg)), st')
          | (Raise e, st') => (Thrown (Exception e), st')
          end
      end
  end.

Definition setup_enhanced_chatbot (pf : platform) (gemini_api_key department : string)
           (regulation : option string) (data_root : string) : outcome chatbot :=
  if String.eqb gemini_api_key EmptyString
  then Thrown (Exception (ValueError "Gemini API key is required."))
  else
    let path := data_path data_root department regulation in
    let collection_name := collection_name_of department regulation in
    let syllabus_data_path := path_join path ["syllabus_data.json"] in
    let optimization_path := path_join path ["rag_optimization_data.json"] in
    if negb (path_exists pf syllabus_data_path)
    then Thrown (FileNotFoundError
                   ("Syllabus data not found for '" ++ department ++ "' (Regulation: "
                    ++ or_else regulation "N/A" ++ ") at " ++ syllabus_data_path))
    else
      match connect pf gemini_api_key with
      | Failed msg => Thrown (Exception (External msg))
      | Returned (m, e, client) =>
          match load_data_files pf syllabus_data_path optimization_path (init m e) with
          | (Thrown f, _) => Thrown f
          | (Done _, loaded) =>
              match create_enhanced_vector_store client collection_name loaded with
              | (Raise e', _) => Thrown (Exception e')
              | (Ok _, chatbot) => Done chatbot
              end
          end
      end.

(* ================================================================== *)
(** ** integrated_main.py: the course endpoint *)

(** The request model [ChatQuery]. *)
Record chat_query : Type := mkChatQuery
  { cq_query : string; cq_department : string; cq_regulation : option string }.

(** The [detail] of an [HTTPException]: a fixed text, or the text that
    ends with [str(e)] for the exception [e] that made the load fail. *)
Inductive detail : Type :=
| Fixed (text : string)
| FailedToLoad (e : exn).

Inductive http (A : Type) : Type :=
| Response (a : A)
| HTTPException (status_code : nat) (d : detail).
Arguments Response {A} a.
Arguments HTTPException {A} status_code d.

Definition DATA_ROOT_DIRECTORY : string := "data".

(** [request.regulation.lower() if request.regulation else None] *)
Definition lowered_regulation (request : chat_query) : option string :=
  if given (cq_regulation request)
  then Some (PyStr.lower (or_else (cq_regulation request) EmptyString))
  else None.

Definition chatbot_key_of (department : string) (regulation : option string) : string :=
  if given regulation
  then department ++ "_" ++ or_else regulation EmptyString
  else department.

Definition processing_error : detail :=
  Fixed "An error occurred while processing the request.".

(** [handle_course_chat], with the module's [GEMINI_API_KEY] and
    [course_chatbots]; it returns the response or the [HTTPException]
    raised, and [course_chatbots] as it leaves it. *)
Definition handle_course_chat (pf : platform) (GEMINI_API_KEY : option string)
           (course_chatbots : list (string * chatbot)) (request : chat_query)
  : http chat_result * list (string * chatbot) :=
  if negb (given GEMINI_API_KEY)
  then (HTTPException 500 (Fixed "Server is missing GEMINI API key configuration."),
        course_chatbots)
  else
    let department := PyStr.lower (cq_department request) in
    let regulation := lowered_regulation request in
    let user_query := cq_query request in
    let chatbot_key := chatbot_key_of department regulation in
    let loaded :=
      match lookup chatbot_key course_chatbots with
      | Some _ => inl course_chatbots
      | None =>
          match setup_enhanced_chatbot pf (or_else GEMINI_API_KEY EmptyString)
                  department regulation DATA_ROOT_DIRECTORY with
          | Done chatbot => inl (course_chatbots ++ [(chatbot_key, chatbot)])%list
          | Thrown (FileNotFoundError msg) => inr (HTTPException 404 (Fixed msg))
          | Thrown (Exception e) => inr (HTTPException 500 (FailedToLoad e))
          end
      end in
    match loaded with
    | inr raised => (raised, course_chatbots)
    | inl chatbots =>
        match lookup chatbot_key chatbots with
        | Some chatbot =>
            match chat chatbot user_query 10 with
            | Ok response => (Response response, chatbots)
            | Raise _ => (HTTPException 500 processing_error, chatbots)
            end
        | None => (HTTPException 500 processing_error, chatbots)
        end
    end.

(* ================================================================== *)
(** ** app.py: initialisation and the question endpoint *)

(** The module's globals with the services of the follow-up suggester:
    [vector_store_retriever] is the one of [services], and
    [rag_chain_invoke r q] is [rag_chain.invoke(q)] for the chain built
    on the retriever [r]. *)
Record admissions : Type := mkAdmissions
  { adm_services : App.services;
    is_rag_initialized : bool;
    rag_chain_invoke : (string -> reply (list string)) -> string -> reply string }.

(** What [initialize_rag_chain] meets: the embeddings constructor, the
    two [os.path.exists] tests, and the two ways to a retriever (the
    store on disk, or a new store built from the knowledge base). *)
Record rag_sources : Type := mkRagSources
  { make_embeddings : reply unit;
    db_file_exists : bool;
    load_store : reply (string -> reply (list string));
    knowledge_base_exists : bool;
    build_store : reply (string -> reply (list string)) }.

Definition set_retriever (r : option (string -> reply (list string)))
           (sv : App.services) : App.services :=
  App.mkServices r (App.llm_invoke sv) (App.literal_eval sv).

Definition set_initialized (flag : bool) (a : admissions) : admissions :=
  mkAdmissions (adm_services a) flag (rag_chain_invoke a).

(** The two assignments that end a successful initialisation. *)
Definition initialized_with (r : string -> reply (list string)) (a : admissions)
  : admissions :=
  mkAdmissions (set_retriever (Some r) (adm_services a)) true (rag_chain_invoke a).

Definition initialize_rag_chain (src : rag_sources) (a : admissions) : admissions :=
  match make_embeddings src with
  | Failed _ => set_initialized false a
  | Returned _ =>
      if db_file_exists src then
        match load_store src with
        | Returned r => initialized_with r a
        | Failed _ => set_initialized false a
        end
      else if negb (knowledge_base_exists src) then set_initialized false a
      else
        match build_store src with
        | Returned r => initialized_with r a
        | Failed _ => set_initialized false a
        end
  end.

Definition not_initialized_answer : string :=
  "The knowledge base is not yet initialized. Please make sure university_guide.md exists and restart the server.".

Definition get_rag_response (a : admissions) (question : string) : string :=
  match is_rag_initialized a, App.vector_store_retriever (adm_services a) with
  | true, Some retriever =>
      match rag_chain_invoke a retriever question with
      | Returned answer => answer
      | Failed e => "Sorry, an error occurred: " ++ e
      end
  | _, _ => not_initialized_answer
  end.

(** The request model [AskRequest]. *)
Record ask_request : Type := mkAskRequest
  { question : string; chat_history : list App.turn }.

(** A response: its status code and the two fields of [AskResponse]. *)
Record ask_response : Type := mkAskResponse
  { status_code : nat; ask_answer : string; suggested_questions : list string }.

(** The two turns appended to the history. *)
Definition exchange (q ai_response : string) : list App.turn :=
  [[("type", "user"); ("message", q)]; [("type", "ai"); ("message", ai_response)]].

Definition ask_question (a : admissions) (payload : ask_request) : result ask_response :=
  if negb (is_rag_initialized a) then
    Ok (mkAskResponse 400
          "Knowledge base not initialized. Please make sure university_guide.md exists and restart the server."
          [])
  else
    let ai_response := get_rag_response a (question payload) in
    let current_chat_history :=
      (chat_history payload ++ exchange (question payload) ai_response)%list in
    suggested <- App.generate_followup_questions (adm_services a) current_chat_history ;;
    Ok (mkAskResponse 200 ai_response suggested).

(** [ask_admissions_question] of integrated_main.py: the same, but an
    [HTTPException] with status 400 when not initialised. *)
Definition ask_admissions_question (a : admissions) (payload : ask_request)
  : result (http (string * list string)) :=
  if negb (is_rag_initialized a) then
    Ok (HTTPException 400 (Fixed "Admissions knowledge base not initialized."))
  else
    let ai_response := get_rag_response a (question payload) in
    let current_chat_history :=
      (chat_history payload ++ exchange (question payload) ai_response)%list in
    suggested <- App.generate_followup_questions (adm_services a) current_chat_history ;;
    Ok (Response (ai_response, suggested)).

(* ================================================================== *)
(** ** integrated_main.py, placements_chatbot.py: the columns of the
       placements table *)

(** A character outside [[^a-z0-9_]]. *)
Definition kept (c : ascii) : bool :=
  PyStr.is_lower c || PyStr.is_digit c || Ascii.eqb c "_".

(** [re.sub(r'[^a-z0-9_]', '', s)] *)
Fixpoint remove_others (s : string) : string :=
  match s with
  | EmptyString => EmptyString
  | String c s' => if kept c then String c (remove_others s') else remove_others s'
  end.

(** [columns.str.lower().str.replace(r'[^a-z0-9_]', '', regex=True)] on
    one column name. *)
Definition clean_column (name : string) : string :=
  remove_others (PyStr.lower name).

Definition column_renames : list (string * string) :=
  [("companyname", "company_name");
   ("paypackageinlpa", "pay_package_lpa");
   ("sno", "serial_number")].

(** [df.rename(columns=...)] on one column name. *)
Definition rename_column (name : string) : string :=
  match lookup name column_renames with
  | Some renamed => renamed
  | None => name
  end.

(** The column names of the table the agent is given. *)
Definition prepare_columns (columns : list string) : list string :=
  map rename_column (map clean_column columns).

(* ================================================================== *)
(** * Vocabulary of the properties *)

(** [needle] occurs in [hay]. *)
Definition occurs_in (needle hay : string) : Prop :=
  exists before after, hay = before ++ needle ++ after.

(** The result is not a [ValueError]. *)
Definition no_value_error {A : Type} (r : result A) : Prop :=
  match r with
  | Raise (ValueError _) => False
  | _ => True
  end.

Import App.

(** Follow-up generation succeeds on [chat_history]: a retriever is
    configured, the most recent user turn has a message, retrieval and the
    model call return, and the model's text parses as a list of strings,
    [questions]. *)
Definition generation_succeeds (sv : services) (chat_history : list turn)
           (questions : list string) : Prop :=
  exists retriever message docs text elements,
    vector_store_retriever sv = Some retriever /\
    first_user_message (rev chat_history) = Ok (Some message) /\
    message <> EmptyString /\
    retriever message = Returned docs /\
    llm_invoke sv (followup_prompt (PyStr.join (PyStr.nl ++ PyStr.nl) docs))
    = Returned text /\
    literal_eval sv text = Returned (LList elements) /\
    all_str elements = Some questions.

(** The model answers with a list of one question. *)
Definition one_question_text : string :=
  "[" ++ String PyStr.dquote "Is a hostel available?" ++ String PyStr.dquote "]".

(** A configured retriever, a model that answers [one_question_text], and
    [ast.literal_eval] on that text. *)
Definition one_question_services : services :=
  mkServices
    (Some (fun _ => Returned ["Hostel rooms are allotted on request."]))
    (fun _ => Returned one_question_text)
    (fun text => if String.eqb text one_question_text
                 then Returned (LList [LStr "Is a hostel available?"])
                 else Failed "invalid syntax").

(** A history of one user turn. *)
Definition one_turn_history : list turn :=
  [[("type", "user"); ("message", "Where do students stay?")]].

(** [md.get(k, default)] on the items of a dictionary. *)
Definition field (md : list (string * json)) (k : string) (default : json) : json :=
  match lookup k md with
  | Some x => x
  | None => default
  end.



(** A record with its three key fields, and one without a course code. *)
Definition complete_record : json :=
  JDict [("metadata", JDict [("course_code", JStr "23BS1101");
                             ("course_name", JStr "Engineering Mathematics");
                             ("semester", JInt 1)])].

Definition record_without_code : json :=
  JDict [("metadata", JDict [("course_name", JStr "Engineering Physics");
                             ("semester", JInt 1)])].


(** A record with two outcomes and one syllabus unit. *)
Definition sample_md : list (string * json) :=
  [("course_code", JStr "23BS1101");
   ("course_name", JStr "Engineering Mathematics");
   ("semester", JInt 1);
   ("course_outcomes", JList [JStr "Solve linear systems"; JStr "Apply calculus"])].

Definition sample_record : json :=
  JDict [("metadata", JDict sample_md);
         ("syllabus", JList [JDict [("unit_number", JInt 1); ("title", JStr "Matrices");
                                    ("topics", JList [JStr "Rank"; JStr "Inverse"])]])].

(** A freshly constructed chatbot. *)
Definition idle_bot : chatbot :=
  init (fun _ => Failed "unavailable") (fun _ => Returned []).

(** The tables of the chatbot hold strings where the data model says so:
    course names in the semester map and in the course details, and lists
    of course identifiers in the concept map. *)
Definition string_tables (st : chatbot) : Prop :=
  (forall sem courses, lookup sem (semester_course_map st) = Some courses ->
     exists names, map course_name courses = map JStr names) /\
  (forall code course, details_lookup code (course_details st) = Some course ->
     exists md name, getitem course "metadata" = Ok (JDict md) /\
                     field md "course_name" (JStr EmptyString) = JStr name) /\
  (exists mapping, concept_mapping st = JDict mapping /\
     forall concept courses, In (concept, courses) mapping ->
       exists ids, courses = JList (map JStr ids)).

(** The query has a semester reference with digit string [d], anywhere. *)
Definition semester_reference (q d : string) : Prop :=
  exists m, In m (Re.all_matches Re.semester_pattern (PyStr.lower q))
            /\ Re.group1 m = Some d.

(** What [enhance_query] returns once the terms are gathered. *)
Definition with_terms (q : string) (terms : list string) : string :=
  match terms with
  | [] => q
  | _ :: _ => q ++ " " ++ PyStr.join " " terms
  end.

(** A summary entry of the semester map. *)
Definition summary (code name : string) : course_summary :=
  mkSummary (JStr code) (JStr name) (JInt 3) (JStr "Core").

(** A chatbot with three courses in semester 3 and nothing else. *)
Definition third_semester_bot : chatbot :=
  set_semester_course_map
    [("3", [summary "23CS3301" "Data Structures";
            summary "23CS3302" "Discrete Mathematics";
            summary "23CS3303" "Digital Logic Design"])]
    idle_bot.

(** The order of [sorted] on strings, and its strict part. *)
Definition le_str (a b : string) : Prop := String.leb a b = true.
Definition lt_str (a b : string) : Prop := String.ltb a b = true.

(** [d['metadata'].get(k)] when the metadata is a dictionary. *)
Definition doc_field (d : doc) (k : string) : json :=
  match doc_metadata d with
  | JDict md => field md k JNull
  | _ => JNull
  end.

(** The entry a document contributes. *)
Definition course_label (d : doc) : string :=
  str (doc_field d "course_code") ++ " - " ++ str (doc_field d "course_name").

(** The filter of the generator expression in [chat]. *)
Definition has_course_code (d : doc) : bool := truthy (doc_field d "course_code").

(** The distance [0.5]. *)
Definition half : pyfloat := mkFloat true "0.5".

(** A collection in which the two nearest chunks carry the same course
    code under two course names. *)
Definition two_names_collection : collection_t :=
  mkCollection (fun _ _ =>
    Returned
      (mkQueryResult
         [["Course Overview for Data Structures (23CS3301)";
           "Course Overview for Data Structures Lab (23CS3301)"]]
         [[JDict [("course_code", JStr "23CS3301"); ("course_name", JStr "Data Structures")];
           JDict [("course_code", JStr "23CS3301"); ("course_name", JStr "Data Structures Lab")]]]
         [[half; half]])).

(** A chatbot whose collection is [two_names_collection]. *)
Definition two_names_bot : chatbot :=
  mkChatbot (fun _ => Returned "Both are offered.") (fun _ => Returned [])
            (Some two_names_collection) [] (JList []) (JDict []) [] [].

(** [m] changes nothing of the state but [self.chunks_data], to which it
    appends at most [n] chunks, all satisfying [P]; this whether [m]
    returns or raises. *)
Definition emits (P : chunk -> Prop) (n : nat) {A : Type} (m : M A) : Prop :=
  forall st, exists new,
    snd (m st) = set_chunks_data (chunks_data st ++ new)%list st /\
    Forall P new /\ List.length new <= n.

(** A chunk of type [ty] carrying the metadata [md]. *)
Definition chunk_of (md : list (string * json)) (ty : string) (c : chunk) : Prop :=
  metadata c = JDict md /\ chunk_type c = ty.

(** The number of syllabus entries [load_data] visits for a course. *)
Definition syllabus_entries (cd : list (string * json)) : nat :=
  match iter (field cd "syllabus" (JList [])) with
  | Ok entries => List.length entries
  | Raise _ => 0
  end.

Definition is_overview (c : chunk) : bool := String.eqb (chunk_type c) "overview".

(** What ingestion keeps true of the state: the semesters of the map are
    distinct and none is empty, every chunk carries a dictionary and one
    of the four chunk types of [load_data], and there are as many overview
    chunks as courses in the semester map. *)
Definition ingested (st : chatbot) : Prop :=
  NoDup (map fst (semester_course_map st)) /\
  Forall (fun kv => snd kv <> []) (semester_course_map st) /\
  Forall (fun c => is_dict (metadata c) = true /\
                   In (chunk_type c) ["overview"; "outcomes"; "syllabus_unit"; "books"])
         (chunks_data st) /\
  List.length (filter is_overview (chunks_data st))
  = List.length (concat (map snd (semester_course_map st))).

(** As [emits], with any property [Q] of the list of appended chunks. *)
Definition emits_list (Q : list chunk -> Prop) {A : Type} (m : M A) : Prop :=
  forall st, exists new,
    snd (m st) = set_chunks_data (chunks_data st ++ new)%list st /\ Q new.

(** At most [n] chunks, all satisfying [P]. *)
Definition at_most (P : chunk -> Prop) (n : nat) (new : list chunk) : Prop :=
  Forall P new /\ List.length new <= n.

(** [m] keeps [I] true of the state, whether it returns or raises. *)
Definition preserves (I : chatbot -> Prop) {A : Type} (m : M A) : Prop :=
  forall st, I st -> I (snd (m st)).

(** The two statements that register a course, as one update of the map. *)
Fixpoint upsert (sem : string) (entry : course_summary)
         (m : list (string * list course_summary))
  : list (string * list course_summary) :=
  match m with
  | [] => [(sem, [entry])]
  | (k, l) :: m' =>
      if String.eqb sem k then (k, (l ++ [entry])%list) :: m'
      else (k, l) :: upsert sem entry m'
  end.

(** The chatbot after [load_data] on [sample_record] alone. *)
Definition sample_loaded : chatbot :=
  snd (load_data (JList [sample_record]) None idle_bot).

(** A chatbot whose only FAQ entry has no answer. *)
Definition faq_without_answer : chatbot :=
  set_faq_data (JList [JDict [("question", JStr "What is the fee?")]]) idle_bot.

(** A collection that finds nothing and accepts every batch, and a client
    that always creates it. *)
Definition empty_store : store :=
  mkStore (mkCollection (fun _ _ => Returned (mkQueryResult [[]] [[]] [[]])))
          (fun _ _ _ _ => Returned tt).

Definition simple_client : vector_client :=
  mkClient (fun _ => Failed "Collection does not exist.")
           (fun _ => Returned empty_store).

(** A chatbot that knows the course of [sample_record] and nothing else. *)
Definition details_bot : chatbot :=
  set_course_details [(JStr "23BS1101", sample_record)] idle_bot.

(** [docs] and [docs'] hold the same documents, in any order and number. *)
Definition same_documents (docs docs' : list doc) : Prop :=
  forall d, In d docs <-> In d docs'.

(** The two documents of [two_names_collection], in the other order. *)
Definition reversed_names_bot : chatbot :=
  mkChatbot (fun _ => Returned "Both are offered.") (fun _ => Returned [])
    (Some (mkCollection (fun _ _ =>
       Returned
         (mkQueryResult
            [["Course Overview for Data Structures Lab (23CS3301)";
              "Course Overview for Data Structures (23CS3301)"]]
            [[JDict [("course_code", JStr "23CS3301"); ("course_name", JStr "Data Structures Lab")];
              JDict [("course_code", JStr "23CS3301"); ("course_name", JStr "Data Structures")]]]
            [[half; half]]))))
    [] (JList []) (JDict []) [] [].


(** The key under which [handle_course_chat] caches the chatbot of a
    request. *)
Definition request_key (request : chat_query) : string :=
  chatbot_key_of (PyStr.lower (cq_department request)) (lowered_regulation request).

(** The answer of [handle_course_chat] once it has the chatbot. *)
Definition served (chatbot : chatbot) (user_query : string) : http chat_result :=
  match chat chatbot user_query 10 with
  | Ok response => Response response
  | Raise _ => HTTPException 500 processing_error
  end.

(** Every cached chatbot has gone through ingestion and has a collection. *)
Definition ready_chatbots (course_chatbots : list (string * chatbot)) : Prop :=
  Forall (fun kv => ingested (snd kv) /\ collection (snd kv) <> None) course_chatbots.

(** A platform with no file and no service, and one that holds the
    syllabus of [sample_record] for the department "ce". *)
Definition bare_platform : platform :=
  mkPlatform (fun _ => false) (fun _ => Missing) (fun _ => Failed "offline").

Definition ce_platform : platform :=
  mkPlatform
    (fun path => String.eqb path "data/ce/syllabus_data.json")
    (fun path => if String.eqb path "data/ce/syllabus_data.json"
                 then Decoded (JList [sample_record]) else Missing)
    (fun _ => Returned (fun _ => Returned "It covers matrices.",
                        fun _ => Returned [],
                        simple_client)).

Definition ce_request : chat_query := mkChatQuery "what is 23BS1101" "CE" None.

(** The flag [is_rag_initialized] is only set with a retriever in place. *)
Definition consistent (a : admissions) : Prop :=
  is_rag_initialized a = true -> App.vector_store_retriever (adm_services a) <> None.

(** The module as it is imported: no retriever, not initialised. *)
Definition imported (sv : App.services)
           (chain : (string -> reply (list string)) -> string -> reply string)
  : admissions :=
  mkAdmissions (set_retriever None sv) false chain.

(** Sources from which a store is built anew. *)
Definition fresh_sources : rag_sources :=
  mkRagSources (Returned tt) false (Failed "no store on disk") true
               (Returned (fun _ => Returned ["Hostel rooms are allotted on request."])).

(** Every character of [s] is a lowercase letter, a digit or "_". *)
Definition all_kept (s : string) : Prop :=
  forall c, In c (list_ascii_of_string s) -> kept c = true.

(** [course['metadata']['course_code'] == code] for a string [code],
    false when the record has no such field. *)
Definition has_code (code : string) (course : json) : bool :=
  match getitem course "metadata" with
  | Ok md =>
      match getitem md "course_code" with
      | Ok (JStr s) => String.eqb code s
      | _ => false
      end
  | Raise _ => false
  end.

(** The two states differ at most in [self.course_details]. *)
Definition agree (s s' : chatbot) : Prop :=
  set_course_details [] s = set_course_details [] s'.

(** [m] neither reads nor writes [self.course_details]. *)
Definition frame_safe {A : Type} (m : M A) : Prop :=
  forall s s', agree s s' -> fst (m s) = fst (m s') /\ agree (snd (m s)) (snd (m s')).

(** A record with a course code but no course name. *)
Definition record_without_name : json :=
  JDict [("metadata", JDict [("course_code", JStr "23BS1102"); ("semester", JInt 1)])].

(* ================================================================== *)
(** * Properties *)

(** ** Strings *)

Lemma prefix_true_iff (a s : string) :
  prefix a s = true <-> exists after, s = a ++ after.
Proof.
  revert s. induction a as [|c a IH]; intros s.
  - split; [intros _; now exists s | now destruct s].
  - destruct s as [|d s]; simpl.
    + split; [discriminate | intros [t Ht]; discriminate].
    + destruct (ascii_dec c d) as [->|Hne].
      * rewrite IH. split; intros [t Ht]; exists t; [now rewrite Ht | now inversion Ht].
      * split; [discriminate | intros [t Ht]; simpl in Ht; congruence].
Qed.

Lemma contains_true_iff (needle hay : string) :
  PyStr.contains needle hay = true <-> occurs_in needle hay.
Proof.
  unfold occurs_in. induction hay as [|c hay IH].
  - cbn [PyStr.contains]. rewrite orb_false_r, prefix_true_iff. split.
    + intros [t Ht]. now exists EmptyString, t.
    + intros [b [t Hb]]. destruct b; [now exists t | discriminate].
  - cbn [PyStr.contains]. rewrite orb_true_iff, prefix_true_iff, IH. split.
    + intros [[t Ht] | [b [t Hb]]].
      * now exists EmptyString, t.
      * exists (String c b), t. now rewrite Hb.
    + intros [b [t Hb]]. destruct b as [|d b].
      * left. now exists t.
      * right. inversion Hb. now exists b, t.
Qed.

Lemma append_assoc (a b c : string) : (a ++ b) ++ c = a ++ (b ++ c).
Proof. induction a; simpl; congruence. Qed.

Lemma append_empty_r (a : string) : a ++ EmptyString = a.
Proof. induction a; simpl; congruence. Qed.

Lemma occurs_in_append_r (n a b : string) : occurs_in n b -> occurs_in n (a ++ b).
Proof.
  intros [p [q ->]]. exists (a ++ p), q. now rewrite append_assoc.
Qed.

Lemma occurs_in_append_l (n a b : string) : occurs_in n a -> occurs_in n (a ++ b).
Proof.
  intros [p [q ->]]. exists p, (q ++ b). now rewrite !append_assoc.
Qed.

Lemma occurs_in_refl (n : string) : occurs_in n n.
Proof. exists EmptyString, EmptyString. simpl. now rewrite append_empty_r. Qed.

(** Every part of a join occurs in it. *)
Lemma occurs_in_join (sep : string) (parts : list string) (s : string) :
  In s parts -> occurs_in s (PyStr.join sep parts).
Proof.
  unfold PyStr.join. induction parts as [|x parts IH]; [easy|].
  intros [->|Hin]; destruct parts as [|y parts].
  - apply occurs_in_refl.
  - cbn [concat]. apply occurs_in_append_l, occurs_in_refl.
  - destruct Hin.
  - cbn [concat]. do 2 apply occurs_in_append_r. now apply IH.
Qed.

(** ** Exceptions of the built-ins *)

Lemma nve_bind {A B : Type} (r : result A) (k : A -> result B) :
  no_value_error r -> (forall a, no_value_error (k a)) -> no_value_error (Py.bind r k).
Proof. destruct r as [a|e]; simpl; auto. Qed.

Lemma nve_ok {A : Type} (a : A) : no_value_error (Ok a).
Proof. exact I. Qed.

Lemma nve_getitem v k : no_value_error (getitem v k).
Proof. destruct v; simpl; auto. destruct (lookup k d); simpl; auto. Qed.

Lemma nve_get v k d : no_value_error (get v k d).
Proof. destruct v; simpl; auto. Qed.

Lemma nve_iter v : no_value_error (iter v).
Proof. destruct v; simpl; auto. Qed.

Lemma nve_slice_to n v : no_value_error (slice_to n v).
Proof. destruct v; simpl; auto. Qed.

Lemma nve_items v : no_value_error (items v).
Proof. destruct v; simpl; auto. Qed.

Lemma nve_strings l : no_value_error (strings l).
Proof.
  induction l as [|x l IH]; simpl; auto.
  destruct x; simpl; auto. apply nve_bind; auto. intros; exact I.
Qed.

Lemma nve_call {A : Type} (r : reply A) : no_value_error (call r).
Proof. destruct r; simpl; auto. Qed.

Lemma nve_first {A : Type} (l : list A) : no_value_error (first l).
Proof. destruct l; simpl; auto. Qed.

Create HintDb nve.
#[local] Hint Resolve nve_ok nve_getitem nve_get nve_iter nve_slice_to nve_items
  nve_strings nve_call nve_first : nve.

Ltac nve := repeat (apply nve_bind; [auto with nve | intros]); auto with nve.

Lemma nve_concept_terms mapping ql terms :
  no_value_error (concept_terms mapping ql terms).
Proof.
  revert terms. induction mapping as [|[concept courses] mapping IH]; intros terms.
  - exact I.
  - cbn [concept_terms]. destruct (PyStr.contains _ _); [|apply IH]. nve.
Qed.

Lemma nve_enhance_query st q : no_value_error (enhance_query st q).
Proof.
  unfold enhance_query. apply nve_bind.
  - unfold course_code_terms.
    destruct (Re.search _ _); [|exact I].
    destruct (details_lookup _ _); [|exact I]. nve.
  - intros terms2. apply nve_bind; [apply nve_items|]. intros mapping.
    apply nve_bind; [apply nve_concept_terms|].
    intros [|x l]; [exact I|]. unfold join_items. nve.
Qed.

(** ** Retrieval *)

(** C3. [retrieve_context] raises the "not initialized" error when
    [self.collection] is unset, for every query and every number of
    results, and never raises it when a collection is active. *)
Theorem retrieve_context_not_initialized_iff (st : chatbot) (q : string) (k : Z) :
  retrieve_context st q k = Raise not_initialized <-> collection st = None.
Proof.
  unfold retrieve_context. destruct (collection st) as [coll|].
  - split; [|discriminate]. intros H. exfalso.
    assert (N : no_value_error (A := list doc) (Raise not_initialized)).
    { rewrite <- H. apply nve_bind; [apply nve_enhance_query|]. intros. nve. }
    exact N.
  - split; reflexivity.
Qed.

(** ** Prompt selection *)

Lemma asks_syllabus_only_iff (q : string) :
  asks_syllabus_only q = true <->
  occurs_in "syllabus" (PyStr.lower q) /\
  forall k, In k ["book"; "overview"; "credit"; "outcome"; "prerequisite"] ->
            ~ occurs_in k (PyStr.lower q).
Proof.
  unfold asks_syllabus_only. cbv zeta.
  rewrite andb_true_iff, negb_true_iff, contains_true_iff.
  split; intros [H1 H2]; split; auto.
  - intros k Hk Hocc. apply contains_true_iff in Hocc.
    assert (E : existsb (fun keyword => PyStr.contains keyword (PyStr.lower q))
                        other_topics = true).
    { apply existsb_exists. exists k. split; assumption. }
    congruence.
  - destruct (existsb _ other_topics) eqn:E; [|reflexivity].
    apply existsb_exists in E. destruct E as [k [Hk Hc]].
    apply contains_true_iff in Hc. exfalso. now apply (H2 k).
Qed.

(** The two templates never produce the same prompt. *)
Lemma prompts_differ (ctx q ctx' q' : string) :
  syllabus_prompt ctx q <> default_prompt ctx' q'.
Proof.
  intros H. apply (f_equal (substring 19 1)) in H. vm_compute in H. discriminate.
Qed.

(** C6. The focused syllabus-only template is selected exactly when the
    lowercased query contains "syllabus" and none of "book", "overview",
    "credit", "outcome", "prerequisite"; otherwise the default template
    is.  "give me the syllabus for 23BS1101" gets the focused template,
    "what is the syllabus overview and credits for 23BS1101" the default
    one. *)
Theorem prompt_template_selection (q ctx : string) :
  let narrow :=
    occurs_in "syllabus" (PyStr.lower q) /\
    forall k, In k ["book"; "overview"; "credit"; "outcome"; "prerequisite"] ->
              ~ occurs_in k (PyStr.lower q) in
  (compose_prompt q ctx = syllabus_prompt ctx q <-> narrow) /\
  (compose_prompt q ctx = default_prompt ctx q <-> ~ narrow) /\
  compose_prompt "give me the syllabus for 23BS1101" ctx
  = syllabus_prompt ctx "give me the syllabus for 23BS1101" /\
  compose_prompt "what is the syllabus overview and credits for 23BS1101" ctx
  = default_prompt ctx "what is the syllabus overview and credits for 23BS1101".
Proof.
  cbv zeta. rewrite <- asks_syllabus_only_iff. unfold compose_prompt.
  repeat split.
  - destruct (asks_syllabus_only q); [reflexivity|].
    intros H. symmetry in H. now apply prompts_differ in H.
  - intros ->. reflexivity.
  - destruct (asks_syllabus_only q); [|discriminate].
    intros H _. now apply prompts_differ in H.
  - destruct (asks_syllabus_only q); [|reflexivity]. intros H. now elim H.
Qed.

(** ** Generation failures *)

(** C4, as stated, fails: a failure that is not about the API key is
    answered with the provider's own error text appended to the apology. *)
Lemma apology_carries_raw_error :
  let st := init (fun _ => Failed "503 quota exceeded for project 42")
                 (fun _ => Returned []) in
  exists answer,
    generate_enhanced_response st "what is taught in sem 3" [] = Ok answer /\
    PyStr.contains "API key not valid" "503 quota exceeded for project 42" = false /\
    PyStr.contains "503 quota exceeded for project 42" answer = true.
Proof.
  eexists. split; [reflexivity|]. split; vm_compute; reflexivity.
Qed.

(** C4, amended. When the model call raises, no exception leaves
    [generate_enhanced_response]: an error whose text contains
    "API key not valid" is answered with the fixed administrator message,
    and any other error with the apology followed by the error text. *)
Theorem generation_failure_message
        (st : chatbot) (q : string) (context_docs : list doc)
        (parts : list string) (error_message : string)
        (Hparts : context_parts context_docs = Ok parts)
        (Hfail : model st (compose_prompt q
                   (PyStr.join (PyStr.nl ++ "---" ++ PyStr.nl) parts))
                 = Failed error_message) :
  generate_enhanced_response st q context_docs
  = Ok (if PyStr.contains "API key not valid" error_message
        then api_key_message
        else error_prefix ++ error_message)
  /\ api_key_message
     = "Sorry, there is an issue with the server's API key configuration. Please contact the administrator."
  /\ error_prefix = "Sorry, I encountered an error generating the response: ".
Proof.
  unfold generate_enhanced_response. rewrite Hparts. cbn [Py.bind].
  rewrite Hfail. destruct (PyStr.contains _ error_message); auto.
Qed.

Lemma generation_failure_message_witness :
  generate_enhanced_response
    (init (fun _ => Failed "400 API key not valid. Please pass a valid API key.")
          (fun _ => Returned []))
    "credits of 23BS1101" []
  = Ok api_key_message.
Proof.
  exact (proj1 (generation_failure_message
                  (init (fun _ => Failed "400 API key not valid. Please pass a valid API key.")
                        (fun _ => Returned []))
                  "credits of 23BS1101" [] [] _ eq_refl eq_refl)).
Defined.

(** ** Follow-up questions *)

(** C2, as stated, fails: a parsed list of strings is returned whatever
    its length. *)
Lemma followups_need_not_be_four :
  generation_succeeds one_question_services one_turn_history ["Is a hostel available?"] /\
  generate_followup_questions one_question_services one_turn_history
  = Ok ["Is a hostel available?"] /\
  List.length ["Is a hostel available?"] <> 4%nat.
Proof.
  split; [|split; [vm_compute; reflexivity | discriminate]].
  eexists _, _, _, _, _.
  split; [reflexivity|]. split; [reflexivity|]. split; [discriminate|].
  split; [reflexivity|]. split; [reflexivity|]. split; vm_compute; reflexivity.
Qed.

(** C2, amended. When follow-up generation succeeds, the suggester
    returns exactly the list of strings the model's text parses to, of
    whatever length. *)
Theorem followups_are_the_parsed_list
        (sv : services) (chat_history : list turn) (questions : list string)
        (Hok : generation_succeeds sv chat_history questions) :
  generate_followup_questions sv chat_history = Ok questions.
Proof.
  destruct Hok as (retriever & message & docs & text & elements
                   & Hr & Hm & Hne & Hd & Hl & Hp & Hs).
  unfold generate_followup_questions. rewrite Hr.
  destruct chat_history as [|t h]; [discriminate|].
  rewrite Hm. cbn [Py.bind].
  destruct message as [|c message]; [congruence|].
  rewrite Hd. cbn [call Py.bind].
  unfold suggest_from. now rewrite Hl, Hp, Hs.
Qed.

Lemma followups_are_the_parsed_list_witness :
  generate_followup_questions one_question_services one_turn_history
  = Ok ["Is a hostel available?"].
Proof.
  apply (followups_are_the_parsed_list one_question_services one_turn_history).
  eexists _, _, _, _, _.
  split; [reflexivity|]. split; [reflexivity|]. split; [discriminate|].
  split; [reflexivity|]. split; [reflexivity|]. split; vm_compute; reflexivity.
Defined.

(** The fallbacks of the suggester: an empty history, no retriever, no
    user turn, a model failure or an answer that is not a list of strings
    all give the five default questions. *)
Lemma followup_fallbacks (sv : services) (chat_history : list turn) :
  List.length get_default_questions = 5%nat /\
  (chat_history = [] \/ vector_store_retriever sv = None ->
   generate_followup_questions sv chat_history = Ok get_default_questions) /\
  (first_user_message (rev chat_history) = Ok None ->
   generate_followup_questions sv chat_history = Ok get_default_questions) /\
  (forall prompt,
      (forall text elements questions,
          llm_invoke sv prompt = Returned text ->
          literal_eval sv text = Returned (LList elements) ->
          all_str elements = Some questions -> False) ->
      suggest_from sv prompt = get_default_questions).
Proof.
  split; [reflexivity|]. split; [|split].
  - unfold generate_followup_questions. intros [->| ->]; [reflexivity|].
    now destruct chat_history.
  - intros H. unfold generate_followup_questions.
    destruct chat_history; [reflexivity|].
    destruct (vector_store_retriever sv); [|reflexivity]. now rewrite H.
  - intros prompt H. unfold suggest_from.
    destruct (llm_invoke sv prompt) as [text|] eqn:El; [|reflexivity].
    destruct (literal_eval sv text) as [[s|elements|]|] eqn:Ep; try reflexivity.
    destruct (all_str elements) as [qs|] eqn:E; [|reflexivity].
    exfalso. now apply (H text elements qs).
Qed.

(** C7 fails on the code: the retriever is called before the [try]
    block, so an error it raises leaves [generate_followup_questions]. *)
Theorem followup_retriever_error_escapes
        (llm : string -> reply string) (parse : string -> reply literal) :
  generate_followup_questions
    (mkServices (Some (fun _ => Failed "503 embedding service unavailable")) llm parse)
    [[("type", "user"); ("message", "What is the fee for an MBA?")]]
  = Raise (External "503 embedding service unavailable").
Proof. reflexivity. Qed.

(** ** Ingestion *)

Section Appends.
Variable P : chunk -> Prop.






End Appends.






Lemma filter_none {A : Type} (f : A -> bool) (l : list A) :
  Forall (fun x => f x = false) l -> filter f l = [].
Proof.
  induction 1 as [|x l Hx _ IH]; simpl; [reflexivity|]. now rewrite Hx.
Qed.

(** A record whose course code, name or semester is missing or empty
    leaves the state as it is. *)
Lemma load_course_skips_incomplete
      (course : json) (md : list (string * json)) (st : chatbot) :
  get course "metadata" (JDict []) = Ok (JDict md) ->
  truthy (field md "course_code" JNull) && truthy (field md "course_name" JNull)
  && truthy (field md "semester" JNull) = false ->
  load_course course st = (Ok tt, st).
Proof.
  intros Hmd Hkeys. unfold load_course, bindM at 1, lift at 1. rewrite Hmd.
  unfold bindM, lift, get, field in *. now rewrite Hkeys.
Qed.

(** C1 fails on the code: a record without a [course_code] key makes the
    dictionary comprehension at the start of [load_data] raise
    [KeyError], and nothing of the batch is ingested. *)
Theorem load_data_missing_course_code_raises
        (m : string -> reply string) (e : list string -> reply (list (list pyfloat)))
        (optimization_data : option json) :
  load_data (JList [complete_record; record_without_code]) optimization_data (init m e)
  = (Raise (KeyError "course_code"), init m e).
Proof. reflexivity. Qed.


Lemma overview_chunk_run md semester name code st :
  exists c, overview_chunk (JDict md) semester name code st
            = (Ok tt, set_chunks_data (chunks_data st ++ [c])%list st)
            /\ chunk_type c = "overview".
Proof. eexists. split; reflexivity. Qed.

Lemma set_chunks_data_same st : set_chunks_data (chunks_data st ++ [])%list st = st.
Proof. destruct st. unfold set_chunks_data. cbn. now rewrite app_nil_r. Qed.


Lemma strings_map_JStr (ss : list string) : strings (map JStr ss) = Ok ss.
Proof. induction ss as [|s ss IH]; cbn; [reflexivity|]. now rewrite IH. Qed.

Lemma strings_inv (l : list json) (ss : list string) :
  strings l = Ok ss -> l = map JStr ss.
Proof.
  revert ss. induction l as [|x l IH]; intros ss; cbn.
  - intros H. now inversion H.
  - destruct x; try discriminate. destruct (strings l) as [ss'|]; [|discriminate].
    cbn. intros H. inversion H. cbn. now rewrite (IH ss').
Qed.



(** ** Query enhancement *)

Lemma concept_terms_strings mapping ql (acc : list string) :
  (forall concept courses, In (concept, courses) mapping ->
     exists ids, courses = JList (map JStr ids)) ->
  exists extra, concept_terms mapping ql (map JStr acc) = Ok (map JStr (acc ++ extra)%list).
Proof.
  revert acc. induction mapping as [|[concept courses] mapping IH]; intros acc H.
  - exists []. cbn. now rewrite app_nil_r.
  - cbn [concept_terms]. destruct (PyStr.contains _ _).
    + destruct (H concept courses (or_introl eq_refl)) as [ids ->].
      cbn [slice_to iter Py.bind]. rewrite firstn_map, <- map_app.
      destruct (IH (acc ++ firstn 2 ids)%list) as [extra E].
      { intros c v Hin. apply (H c v). now right. }
      exists (firstn 2 ids ++ extra)%list. rewrite E. now rewrite app_assoc.
    + destruct (IH acc) as [extra E].
      { intros c v Hin. apply (H c v). now right. }
      now exists extra.
Qed.

Lemma course_code_terms_strings st q :
  string_tables st -> exists names, course_code_terms st q = Ok (map JStr names).
Proof.
  intros (_ & Hd & _). unfold course_code_terms.
  destruct (Re.search _ _) as [m|]; [|now exists []].
  destruct (details_lookup _ _) as [course|] eqn:E; [|now exists []].
  destruct (Hd _ _ E) as (md & name & Hg & Hn). rewrite Hg. cbn [Py.bind get].
  fold (field md "course_name" (JStr EmptyString)). rewrite Hn. now exists [name].
Qed.

Lemma enhance_query_string_tables st q :
  string_tables st ->
  exists sem_names rest,
    semester_terms st (PyStr.lower q) = map JStr sem_names /\
    enhance_query st q = Ok (with_terms q (sem_names ++ rest)%list).
Proof.
  intros Hwf.
  assert (Hsem : exists sem_names,
             semester_terms st (PyStr.lower q) = map JStr sem_names).
  { unfold semester_terms. destruct (Re.search _ _) as [m|]; [|now exists []].
    destruct (Re.group1 m) as [d|]; [|now exists []].
    destruct (lookup d _) as [courses|] eqn:E; [|now exists []].
    exact (proj1 Hwf _ _ E). }
  destruct Hsem as [sem_names Hsem].
  destruct (course_code_terms_strings st q Hwf) as [code_names Hcode].
  destruct Hwf as (_ & _ & mapping & Hm & Hids).
  destruct (concept_terms_strings mapping (PyStr.lower q)
              (sem_names ++ code_names)%list Hids) as [extra Hc].
  exists sem_names, (code_names ++ extra)%list. split; [exact Hsem|].
  unfold enhance_query. cbv zeta. rewrite Hsem, Hcode, Hm. cbn [Py.bind items].
  rewrite <- map_app, Hc. cbn [Py.bind]. rewrite <- app_assoc.
  destruct (sem_names ++ code_names ++ extra)%list as [|t ts] eqn:E; [reflexivity|].
  cbn [map]. change (JStr t :: map JStr ts) with (map JStr (t :: ts)).
  unfold join_items. rewrite strings_map_JStr. reflexivity.
Qed.

(** C8, as stated, fails: only the first semester reference of the query
    is looked up, so a later reference to a known semester adds nothing
    when an earlier one names an unknown semester. *)
Lemma later_semester_reference_ignored :
  semester_reference "compare sem 9 with sem 3" "3" /\
  lookup "3" (semester_course_map third_semester_bot)
  = Some [summary "23CS3301" "Data Structures";
          summary "23CS3302" "Discrete Mathematics";
          summary "23CS3303" "Digital Logic Design"] /\
  enhance_query third_semester_bot "compare sem 9 with sem 3"
  = Ok "compare sem 9 with sem 3" /\
  PyStr.contains "Data Structures" "compare sem 9 with sem 3" = false.
Proof.
  split; [|split; [|split]]; try (vm_compute; reflexivity).
  unfold semester_reference.
  exists (Re.mkMatch 19 24 "sem 3" (Some "3")). split; [|reflexivity].
  vm_compute. right. now left.
Qed.

(** C8, amended. When the first (leftmost) semester reference of the
    lowercased query has a digit string that is a key of the semester
    map, and the tables hold strings, [enhance_query] returns the query
    followed by a space and the space-separated terms, which begin with
    the course names of that semester in their order in the map; so the
    result contains the query and every one of these names. *)
Theorem enhance_query_semester_names
        (st : chatbot) (q d : string) (m : Re.match_obj)
        (courses : list course_summary)
        (Hwf : string_tables st)
        (Hsearch : Re.search Re.semester_pattern (PyStr.lower q) = Some m)
        (Hgroup : Re.group1 m = Some d)
        (Hkey : lookup d (semester_course_map st) = Some courses) :
  exists names rest r,
    map course_name courses = map JStr names /\
    enhance_query st q = Ok r /\
    r = with_terms q (names ++ rest)%list /\
    occurs_in q r /\
    (forall name, In name names -> occurs_in name r).
Proof.
  destruct (enhance_query_string_tables st q Hwf) as (names & rest & Hsem & Hq).
  unfold semester_terms in Hsem. rewrite Hsearch, Hgroup, Hkey in Hsem.
  exists names, rest, (with_terms q (names ++ rest)%list).
  split; [exact Hsem|]. split; [exact Hq|]. split; [reflexivity|].
  unfold with_terms. destruct (names ++ rest)%list as [|t ts] eqn:E.
  - split; [apply occurs_in_refl|]. intros name Hin.
    destruct names; [destruct Hin | discriminate].
  - split; [apply occurs_in_append_l, occurs_in_refl|]. intros name Hin.
    do 2 apply occurs_in_append_r. apply occurs_in_join. rewrite <- E.
    apply in_or_app. now left.
Qed.

Lemma third_semester_bot_tables : string_tables third_semester_bot.
Proof.
  split; [|split].
  - intros sem courses. cbn. destruct (String.eqb sem "3"); [|discriminate].
    intros H. inversion H.
    now exists ["Data Structures"; "Discrete Mathematics"; "Digital Logic Design"].
  - intros code course H. discriminate.
  - exists []. split; [reflexivity|]. intros c v [].
Defined.

Lemma enhance_query_semester_names_witness :
  exists r,
    enhance_query third_semester_bot "sem 3" = Ok r /\
    occurs_in "Data Structures" r /\
    occurs_in "Discrete Mathematics" r /\
    occurs_in "Digital Logic Design" r.
Proof.
  destruct (enhance_query_semester_names third_semester_bot "sem 3" "3"
              (Re.mkMatch 0 5 "sem 3" (Some "3"))
              [summary "23CS3301" "Data Structures";
               summary "23CS3302" "Discrete Mathematics";
               summary "23CS3303" "Digital Logic Design"]
              third_semester_bot_tables eq_refl eq_refl eq_refl)
    as (names & rest & r & Hn & Hq & _ & _ & Hin).
  exists r. split; [exact Hq|].
  inversion Hn as [Hnames].
  destruct names as [|n1 [|n2 [|n3 [|n4 names]]]]; try discriminate.
  inversion Hnames; subst.
  repeat split; apply Hin; cbn; auto.
Defined.



(** ** Relevant courses *)

Lemma leb_trans (a b c : string) :
  String.leb a b = true -> String.leb b c = true -> String.leb a c = true.
Proof.
  unfold String.leb. revert b c.
  induction a as [|x a IH]; intros [|y b] [|z c]; simpl; try easy.
  unfold Ascii.compare.
  destruct (N.compare_spec (N_of_ascii x) (N_of_ascii y)) as [Exy|Lxy|Gxy],
           (N.compare_spec (N_of_ascii y) (N_of_ascii z)) as [Eyz|Lyz|Gyz],
           (N.compare_spec (N_of_ascii x) (N_of_ascii z)) as [Exz|Lxz|Gxz];
    try easy; try lia.
  apply IH.
Qed.

Lemma leb_neq_ltb (a b : string) :
  String.leb a b = true -> a <> b -> String.ltb a b = true.
Proof.
  unfold String.leb, String.ltb. intros H Hne.
  destruct (String.compare a b) eqn:E; try easy.
  now apply String.compare_eq_iff in E.
Qed.

Lemma insert_sorted_in (x y : string) (l : list string) :
  In y (insert_sorted x l) <-> y = x \/ In y l.
Proof.
  induction l as [|z l IH]; simpl.
  - intuition.
  - destruct (String.leb x z); simpl; rewrite ?IH; intuition.
Qed.

Lemma sorted_in (y : string) (l : list string) : In y (sorted l) <-> In y l.
Proof.
  induction l as [|x l IH]; simpl; [reflexivity|].
  rewrite insert_sorted_in, IH. intuition.
Qed.

Lemma insert_sorted_nodup (x : string) (l : list string) :
  ~ In x l -> NoDup l -> NoDup (insert_sorted x l).
Proof.
  induction l as [|z l IH]; simpl; intros Hx Hl.
  - constructor; [easy | constructor].
  - destruct (String.leb x z).
    + constructor; [simpl; intuition | assumption].
    + inversion Hl; subst. constructor.
      * rewrite insert_sorted_in. intuition.
      * apply IH; intuition.
Qed.

Lemma sorted_nodup (l : list string) : NoDup l -> NoDup (sorted l).
Proof.
  induction 1 as [|x l Hx Hl IH]; simpl; [constructor|].
  apply insert_sorted_nodup; [now rewrite sorted_in | assumption].
Qed.

Lemma insert_sorted_sorted (x : string) (l : list string) :
  StronglySorted le_str l -> StronglySorted le_str (insert_sorted x l).
Proof.
  induction 1 as [|z l Hl IH Hz]; simpl.
  - repeat constructor.
  - destruct (String.leb x z) eqn:E.
    + constructor; [now constructor|]. constructor; [exact E|].
      eapply Forall_impl; [|exact Hz]. intros w Hw. now apply (leb_trans x z w).
    + constructor; [exact IH|]. rewrite Forall_forall. intros w Hw.
      apply insert_sorted_in in Hw. destruct Hw as [->|Hw].
      * destruct (String.leb_total x z) as [H|H]; [congruence | exact H].
      * rewrite Forall_forall in Hz. now apply Hz.
Qed.

Lemma sorted_sorted (l : list string) : StronglySorted le_str (sorted l).
Proof.
  induction l as [|x l IH]; simpl; [constructor | now apply insert_sorted_sorted].
Qed.

Lemma sorted_strictly (l : list string) :
  NoDup l -> StronglySorted le_str l -> StronglySorted lt_str l.
Proof.
  intros Hn Hs. induction Hs as [|x l Hl IH Hx]; [constructor|].
  inversion Hn as [|? ? Hnin Hn']; subst. constructor; [now apply IH|].
  rewrite Forall_forall in *. intros w Hw. apply leb_neq_ltb; [now apply Hx|].
  intros ->. contradiction.
Qed.

Lemma course_labels_dicts (docs : list doc) :
  Forall (fun d => is_dict (doc_metadata d) = true) docs ->
  course_labels docs = Ok (map course_label (filter has_course_code docs)).
Proof.
  induction 1 as [|[text [| | | | | |md] x] docs Hd _ IH];
    try discriminate; [reflexivity|].
  cbn [course_labels filter doc_metadata get Py.bind].
  fold (field md "course_code" JNull) (field md "course_name" JNull).
  unfold has_course_code at 1, doc_field at 1. cbn [doc_metadata].
  destruct (truthy (field md "course_code" JNull)); [|exact IH].
  rewrite IH. reflexivity.
Qed.

Lemma context_parts_dicts (docs : list doc) :
  Forall (fun d => is_dict (doc_metadata d) = true) docs ->
  exists parts, context_parts docs = Ok parts.
Proof.
  induction 1 as [|d docs Hd _ [parts IH]]; [now exists []|].
  cbn [context_parts]. destruct (doc_metadata d); try discriminate.
  cbn [get Py.bind]. rewrite IH. cbn [Py.bind]. eauto.
Qed.

Lemma generate_enhanced_response_returns st q docs parts :
  context_parts docs = Ok parts -> exists text, generate_enhanced_response st q docs = Ok text.
Proof.
  intros H. unfold generate_enhanced_response. rewrite H. cbn [Py.bind].
  destruct (model st _); [eauto|]. destruct (PyStr.contains _ _); eauto.
Qed.

(** C10, as stated, fails: entries are told apart by their whole text, so
    one course code met with two course names gives two entries. *)
Lemma one_code_two_entries :
  exists docs r,
    retrieve_context two_names_bot "what is 23CS3301" 10 = Ok docs /\
    chat two_names_bot "what is 23CS3301" 10 = Ok r /\
    distinct (map (fun d => str (doc_field d "course_code")) docs) = ["23CS3301"] /\
    relevant_courses r
    = ["23CS3301 - Data Structures"; "23CS3301 - Data Structures Lab"].
Proof.
  eexists _, _. split; [vm_compute; reflexivity|].
  split; [vm_compute; reflexivity|]. split; vm_compute; reflexivity.
Qed.

(** C10, amended. When retrieval returns documents whose metadata are
    dictionaries, [chat] returns, and its [relevant_courses] is duplicate
    free, in strictly ascending string order, and holds exactly the
    entries "<course_code> - <course_name>" of the retrieved documents
    that have a course code: one entry for each distinct entry text, and
    none for a document without a course code. *)
Theorem relevant_courses_sorted_distinct
        (st : chatbot) (q : string) (n_context : Z) (docs : list doc)
        (Hdocs : retrieve_context st q n_context = Ok docs)
        (Hmeta : Forall (fun d => is_dict (doc_metadata d) = true) docs) :
  exists r,
    chat st q n_context = Ok r /\
    context_used r = List.length docs /\
    NoDup (relevant_courses r) /\
    StronglySorted lt_str (relevant_courses r) /\
    (forall label,
        In label (relevant_courses r) <->
        exists d, In d docs /\ truthy (doc_field d "course_code") = true
                  /\ label = course_label d).
Proof.
  destruct (context_parts_dicts docs Hmeta) as [parts Hparts].
  destruct (generate_enhanced_response_returns st q docs parts Hparts) as [text Htext].
  unfold chat. rewrite Hdocs. cbn [Py.bind]. rewrite Htext. cbn [Py.bind].
  rewrite (course_labels_dicts docs Hmeta). cbn [Py.bind].
  eexists. split; [reflexivity|]. cbn [context_used relevant_courses].
  assert (Hn : NoDup (sorted (distinct (map course_label (filter has_course_code docs))))).
  { apply sorted_nodup. apply NoDup_nodup. }
  split; [reflexivity|]. split; [exact Hn|]. split.
  - apply sorted_strictly; [exact Hn | apply sorted_sorted].
  - intros label. rewrite sorted_in. unfold distinct. rewrite nodup_In, in_map_iff.
    split.
    + intros (d & <- & Hd). apply filter_In in Hd. destruct Hd as [Hin Hc].
      exists d. repeat split; assumption.
    + intros (d & Hin & Hc & ->). exists d. split; [reflexivity|].
      apply filter_In. split; assumption.
Qed.

Lemma relevant_courses_sorted_distinct_witness :
  exists r,
    chat two_names_bot "what is 23CS3301" 10 = Ok r /\
    NoDup (relevant_courses r) /\
    StronglySorted lt_str (relevant_courses r).
Proof.
  destruct (relevant_courses_sorted_distinct two_names_bot "what is 23CS3301" 10 _
              eq_refl)
    as (r & Hr & _ & Hn & Hs & _).
  - repeat constructor.
  - exists r. repeat split; assumption.
Defined.

(** ** The embedding on concrete inputs *)

Example search_takes_leftmost_reference :
  option_map Re.group1
    (Re.search Re.semester_pattern (PyStr.lower "Semester12 and SEM 3"))
  = Some (Some "12").
Proof. vm_compute. reflexivity. Qed.

Example digits_must_end_at_a_word_boundary :
  Re.search Re.semester_pattern "sem 12abc" = None.
Proof. vm_compute. reflexivity. Qed.

Example course_code_token :
  option_map Re.group0
    (Re.search Re.course_code_pattern (PyStr.upper "syllabus for 23bs1101 please"))
  = Some "23BS1101".
Proof. vm_compute. reflexivity. Qed.

(** One record with code "CS101", name "Intro to CS", semester "1" and
    one outcome gives an overview chunk and an outcomes chunk. *)
Example one_record_two_chunks :
  let record :=
    JDict [("metadata", JDict [("course_code", JStr "CS101");
                               ("course_name", JStr "Intro to CS");
                               ("semester", JStr "1");
                               ("course_outcomes", JList [JStr "Understand loops"])])] in
  let st := snd (load_data (JList [record]) None idle_bot) in
  map chunk_type (chunks_data st) = ["overview"; "outcomes"] /\
  map content (chunks_data st)
  = ["Course Overview for Intro to CS (CS101): This is a Semester 1 'N/A' course with N/A credits. Prerequisites: Not specified.";
     "The course outcomes for Intro to CS (CS101) are: Understand loops"] /\
  map fst (semester_course_map st) = ["1"].
Proof. vm_compute. repeat split. Qed.

Example incomplete_record_is_skipped :
  let record :=
    JDict [("metadata", JDict [("course_code", JStr "CS102");
                               ("semester", JStr "1")])] in
  load_data (JList [record]) None idle_bot
  = (Ok tt, set_course_details [(JStr "CS102", record)] idle_bot).
Proof. vm_compute. reflexivity. Qed.

(** ** Ingestion, record by record *)

Lemma set_chunks_data_twice l1 l2 st :
  set_chunks_data l2 (set_chunks_data l1 st) = set_chunks_data l2 st.
Proof. reflexivity. Qed.

Section Emits.
Variable P : chunk -> Prop.

Lemma emits_ret {A : Type} (a : A) : emits P 0 (ret a).
Proof.
  intros st. exists []. cbn [ret snd]. now rewrite set_chunks_data_same.
Qed.

Lemma emits_lift {A : Type} (r : result A) : emits P 0 (lift r).
Proof.
  intros st. exists []. cbn [lift snd]. now rewrite set_chunks_data_same.
Qed.

Lemma emits_append_chunk (c : chunk) : P c -> emits P 1 (append_chunk c).
Proof.
  intros H st. exists [c]. cbn. auto.
Qed.

Lemma emits_bind {A B : Type} (n1 n2 : nat) (m : M A) (k : A -> M B) :
  emits P n1 m -> (forall a, emits P n2 (k a)) -> emits P (n1 + n2) (bindM m k).
Proof.
  intros Hm Hk st. destruct (Hm st) as (new1 & E1 & F1 & L1). unfold bindM.
  destruct (m st) as [[a|e] st1]; cbn [snd] in E1.
  - destruct (Hk a st1) as (new2 & E2 & F2 & L2). exists (new1 ++ new2)%list.
    rewrite E2, E1. cbn [chunks_data set_chunks_data]. rewrite <- app_assoc.
    split; [reflexivity|]. split; [now apply Forall_app|].
    rewrite length_app. lia.
  - exists new1. cbn [snd]. split; [exact E1|]. split; [exact F1|]. lia.
Qed.

Lemma emits_le {A : Type} (n n' : nat) (m : M A) :
  n <= n' -> emits P n m -> emits P n' m.
Proof.
  intros Hn Hm st. destruct (Hm st) as (new & E & F & L).
  exists new. repeat split; auto. lia.
Qed.

Lemma emits_for_each {A : Type} (l : list A) (body : A -> M unit) :
  (forall a, emits P 1 (body a)) -> emits P (List.length l) (for_each l body).
Proof.
  intros H. induction l as [|x l IH]; cbn [for_each List.length].
  - apply emits_ret.
  - change (S (List.length l)) with (1 + List.length l). apply emits_bind; auto.
Qed.
End Emits.

Lemma load_unit_emits md name code item :
  emits (chunk_of md "syllabus_unit") 1 (load_unit (JDict md) name code item).
Proof.
  unfold load_unit. destruct (negb (is_dict item)).
  - apply emits_le with 0; [lia | apply emits_ret].
  - change 1 with (0 + (0 + (0 + (0 + 1)))).
    apply emits_bind; [apply emits_lift | intros topics].
    apply emits_bind; [apply emits_lift | intros unit_topics].
    apply emits_bind; [apply emits_lift | intros number].
    apply emits_bind; [apply emits_lift | intros title].
    apply emits_append_chunk. split; reflexivity.
Qed.

Lemma syllabus_chunks_emits cd md name code :
  emits (chunk_of md "syllabus_unit") (syllabus_entries cd)
        (syllabus_chunks (JDict cd) (JDict md) name code).
Proof.
  unfold syllabus_chunks, syllabus_entries. intros st.
  unfold bindM at 1, lift at 1, get. fold (field cd "syllabus" (JList [])).
  unfold bindM at 1, lift at 1.
  destruct (iter (field cd "syllabus" (JList []))) as [entries|e].
  - apply emits_for_each. intros item. apply load_unit_emits.
  - exists []. cbn [snd]. rewrite set_chunks_data_same. auto.
Qed.

Lemma books_chunk_emits course md name code :
  emits (chunk_of md "books") 1 (books_chunk course (JDict md) name code).
Proof.
  unfold books_chunk. change 1 with (0 + (0 + (0 + 1))).
  apply emits_bind; [apply emits_lift | intros books].
  apply emits_bind; [apply emits_lift | intros textbooks].
  apply emits_bind; [apply emits_lift | intros ref_books].
  destruct (truthy textbooks || truthy ref_books).
  - change 1 with (0 + (0 + 1)).
    apply emits_bind; [apply emits_lift | intros t].
    apply emits_bind; [apply emits_lift | intros r].
    apply emits_append_chunk. split; reflexivity.
  - apply emits_le with 0; [lia | apply emits_ret].
Qed.

Lemma outcomes_chunk_emits md name code :
  emits (chunk_of md "outcomes") 1 (outcomes_chunk (JDict md) name code).
Proof.
  unfold outcomes_chunk. change 1 with (0 + 1).
  apply emits_bind; [apply emits_lift | intros outcomes].
  destruct (truthy outcomes && is_list outcomes).
  - change 1 with (0 + 1).
    apply emits_bind; [apply emits_lift | intros joined].
    apply emits_append_chunk. split; reflexivity.
  - apply emits_le with 0; [lia | apply emits_ret].
Qed.

Lemma emits_as_list (P : chunk -> Prop) (n : nat) {A : Type} (m : M A) :
  emits P n m -> emits_list (at_most P n) m.
Proof.
  intros H st. destruct (H st) as (new & E & F & L). exists new. now split.
Qed.

Lemma emits_list_bind (Q1 Q2 : list chunk -> Prop) {A B : Type}
      (m : M A) (k : A -> M B) :
  emits_list Q1 m -> (forall a, emits_list Q2 (k a)) -> Q2 [] ->
  emits_list (fun new => exists n1 n2, new = (n1 ++ n2)%list /\ Q1 n1 /\ Q2 n2)
             (bindM m k).
Proof.
  intros Hm Hk H0 st. destruct (Hm st) as (new1 & E1 & F1). unfold bindM.
  destruct (m st) as [[a|e] st1]; cbn [snd] in E1.
  - destruct (Hk a st1) as (new2 & E2 & F2). exists (new1 ++ new2)%list.
    rewrite E2, E1. cbn [chunks_data set_chunks_data]. rewrite <- app_assoc.
    split; [reflexivity|]. now exists new1, new2.
  - exists new1. cbn [snd]. split; [exact E1|]. exists new1, [].
    now rewrite app_nil_r.
Qed.

Lemma at_most_nil (P : chunk -> Prop) (n : nat) : at_most P n [].
Proof. split; [constructor | cbn; lia]. Qed.

(** X1. A record that [load_data] processes adds its course to the
    semester map under [str(semester)] and appends, in this order: one
    overview chunk, at most one outcomes chunk, at most one syllabus-unit
    chunk per syllabus entry, at most one books chunk; every one of them
    carries the metadata of the record.  This holds also when a later
    part of the record makes the loop raise. *)
Theorem load_course_chunks
        (cd md : list (string * json)) (st : chatbot)
        (Hmd : field cd "metadata" (JDict []) = JDict md)
        (Hkeys : truthy (field md "course_code" JNull)
                 && truthy (field md "course_name" JNull)
                 && truthy (field md "semester" JNull) = true) :
  let st' := snd (load_course (JDict cd) st) in
  exists overview outs units books,
    chunks_data st' = (chunks_data st ++ overview :: outs ++ units ++ books)%list /\
    chunk_of md "overview" overview /\
    at_most (chunk_of md "outcomes") 1 outs /\
    at_most (chunk_of md "syllabus_unit") (syllabus_entries cd) units /\
    at_most (chunk_of md "books") 1 books /\
    semester_course_map st'
    = append_course (str (field md "semester" JNull))
        (mkSummary (field md "course_code" JNull) (field md "course_name" JNull)
                   (field md "credits" (JStr "N/A")) (field md "category" (JStr "N/A")))
        (ensure_semester (str (field md "semester" JNull)) (semester_course_map st)).
Proof.
  cbv zeta.
  set (name := field md "course_name" JNull).
  set (code := field md "course_code" JNull).
  set (sem := str (field md "semester" JNull)).
  set (st1 := set_semester_course_map
                (append_course sem
                   (mkSummary code name (field md "credits" (JStr "N/A"))
                              (field md "category" (JStr "N/A")))
                   (ensure_semester sem (semester_course_map st))) st).
  assert (H : exists ov outs units books,
             snd (load_course (JDict cd) st)
             = set_chunks_data (chunks_data st ++ ov :: outs ++ units ++ books)%list st1 /\
             chunk_of md "overview" ov /\
             at_most (chunk_of md "outcomes") 1 outs /\
             at_most (chunk_of md "syllabus_unit") (syllabus_entries cd) units /\
             at_most (chunk_of md "books") 1 books).
  { unfold load_course, bindM at 1, lift at 1, get at 1.
    fold (field cd "metadata" (JDict [])). rewrite Hmd.
    unfold bindM at 1, lift at 1, get at 1. fold (field md "course_code" JNull).
    unfold bindM at 1, lift at 1, get at 1. fold (field md "course_name" JNull).
    unfold bindM at 1, lift at 1, get at 1. fold (field md "semester" JNull).
    rewrite Hkeys. cbn [negb]. fold name code sem.
    unfold bindM at 1.
    assert (E1 : register_course (JDict md) sem name code st = (Ok tt, st1))
      by reflexivity.
    rewrite E1.
    destruct (overview_chunk_run md sem name code st1) as (ov & E2 & T2).
    unfold bindM at 1. rewrite E2.
    set (st2 := set_chunks_data (chunks_data st1 ++ [ov])%list st1).
    assert (Hov : metadata ov = JDict md).
    { assert (H : snd (overview_chunk (JDict md) sem name code st1)
                  = set_chunks_data (chunks_data st1 ++ [ov])%list st1)
        by now rewrite E2.
      apply (f_equal chunks_data) in H. cbn in H.
      apply app_inv_head in H. now inversion H. }
    destruct (emits_list_bind _ _ _ (fun _ : unit =>
                bindM (syllabus_chunks (JDict cd) (JDict md) name code)
                      (fun _ : unit => books_chunk (JDict cd) (JDict md) name code))
                (emits_as_list _ _ _ (outcomes_chunk_emits md name code))
                (fun _ => emits_list_bind _ _ _ _
                   (emits_as_list _ _ _ (syllabus_chunks_emits cd md name code))
                   (fun _ => emits_as_list _ _ _ (books_chunk_emits (JDict cd) md name code))
                   (at_most_nil _ _))
                (ex_intro _ [] (ex_intro _ [] (conj eq_refl
                   (conj (at_most_nil _ _) (at_most_nil _ _))))) st2)
      as (new & E & outs & rest & -> & Ho & units & books & -> & Hu & Hb).
    exists ov, outs, units, books. rewrite E. subst st2.
    cbn [chunks_data set_chunks_data]. rewrite <- app_assoc.
    split; [reflexivity|]. split; [now split|]. auto. }
  destruct H as (ov & outs & units & books & E & Hov & Ho & Hu & Hb).
  exists ov, outs, units, books. rewrite E.
  split; [reflexivity|]. split; [exact Hov|]. split; [exact Ho|].
  split; [exact Hu|]. split; [exact Hb|]. reflexivity.
Qed.

(** ** What ingestion keeps true *)

Section Preserves.
Variable I : chatbot -> Prop.

Lemma preserves_ret {A : Type} (a : A) : preserves I (ret a).
Proof. intros st H. exact H. Qed.

Lemma preserves_lift {A : Type} (r : result A) : preserves I (lift r).
Proof. intros st H. exact H. Qed.

Lemma preserves_read {A : Type} (f : chatbot -> A) : preserves I (read f).
Proof. intros st H. exact H. Qed.

Lemma preserves_modify (f : chatbot -> chatbot) :
  (forall st, I st -> I (f st)) -> preserves I (modify f).
Proof. intros Hf st H. cbn. auto. Qed.

Lemma preserves_bind {A B : Type} (m : M A) (k : A -> M B) :
  preserves I m -> (forall a, preserves I (k a)) -> preserves I (bindM m k).
Proof.
  intros Hm Hk st H. specialize (Hm st H). unfold bindM.
  destruct (m st) as [[a|e] st1]; cbn [snd] in *; [now apply Hk | exact Hm].
Qed.

Lemma preserves_for_each {A : Type} (l : list A) (body : A -> M unit) :
  (forall a, preserves I (body a)) -> preserves I (for_each l body).
Proof.
  intros H. induction l as [|x l IH]; cbn [for_each].
  - apply preserves_ret.
  - apply preserves_bind; auto.
Qed.
End Preserves.

Lemma lookup_none_not_in {V : Type} (k : string) (m : list (string * V)) :
  lookup k m = None <-> ~ In k (map fst m).
Proof.
  induction m as [|[k' v] m IH]; cbn; [tauto|].
  destruct (String.eqb_spec k k') as [->|Hne].
  - split; [discriminate | intros H; elim H; now left].
  - rewrite IH. split; [intros H [E|E]; [congruence | tauto] | tauto].
Qed.

Lemma upsert_register sem entry m :
  append_course sem entry (ensure_semester sem m) = upsert sem entry m.
Proof.
  unfold ensure_semester. induction m as [|[k l] m IH].
  - cbn. now rewrite String.eqb_refl.
  - cbn [lookup upsert]. destruct (String.eqb sem k) eqn:E.
    + cbn [append_course]. now rewrite E.
    + destruct (lookup sem m); cbn [app append_course]; rewrite E; now f_equal.
Qed.

Lemma upsert_keys sem entry m :
  map fst (upsert sem entry m)
  = if existsb (String.eqb sem) (map fst m) then map fst m
    else (map fst m ++ [sem])%list.
Proof.
  induction m as [|[k l] m IH]; cbn; [reflexivity|].
  destruct (String.eqb sem k); cbn; [reflexivity|]. rewrite IH.
  now destruct (existsb _ _).
Qed.

Lemma upsert_nodup sem entry m :
  NoDup (map fst m) -> NoDup (map fst (upsert sem entry m)).
Proof.
  intros H. rewrite upsert_keys.
  destruct (existsb (String.eqb sem) (map fst m)) eqn:E; [exact H|].
  apply NoDup_app; [exact H | repeat constructor; easy |].
  intros x Hx [Ex|[]]. subst x.
  assert (T : existsb (String.eqb sem) (map fst m) = true).
  { apply existsb_exists. exists sem. split; [exact Hx | apply String.eqb_refl]. }
  congruence.
Qed.

Lemma upsert_nonempty sem entry m :
  Forall (fun kv => snd kv <> []) m ->
  Forall (fun kv => snd kv <> []) (upsert sem entry m).
Proof.
  induction 1 as [|[k l] m Hk Hm IH]; cbn.
  - repeat constructor. discriminate.
  - destruct (String.eqb sem k); constructor; auto.
    cbn. intros E. apply app_eq_nil in E. destruct E; discriminate.
Qed.

Lemma upsert_count sem entry m :
  List.length (concat (map snd (upsert sem entry m)))
  = S (List.length (concat (map snd m))).
Proof.
  induction m as [|[k l] m IH]; cbn; [reflexivity|].
  destruct (String.eqb sem k); cbn; rewrite !length_app; cbn; [lia|].
  rewrite IH. lia.
Qed.

Lemma load_course_raises_early (course : json) (st : chatbot) :
  (forall md, get course "metadata" (JDict []) <> Ok (JDict md)) ->
  snd (load_course course st) = st.
Proof.
  intros H. unfold load_course, bindM at 1, lift at 1.
  destruct (get course "metadata" (JDict [])) as [mdv|e]; [|reflexivity].
  destruct mdv; try reflexivity. now elim (H d).
Qed.

Lemma at_most_types md ty n new :
  In ty ["overview"; "outcomes"; "syllabus_unit"; "books"] ->
  at_most (chunk_of md ty) n new ->
  Forall (fun c => is_dict (metadata c) = true /\
                   In (chunk_type c) ["overview"; "outcomes"; "syllabus_unit"; "books"])
         new.
Proof.
  intros Hty [H _]. eapply Forall_impl; [|exact H].
  intros c [Hm Ht]. rewrite Hm, Ht. now split.
Qed.

Lemma at_most_not_overview md ty n new :
  ty <> "overview" -> at_most (chunk_of md ty) n new -> filter is_overview new = [].
Proof.
  intros Hty [H _]. apply filter_none. eapply Forall_impl; [|exact H].
  intros c [_ Ht]. unfold is_overview. rewrite Ht. now apply String.eqb_neq.
Qed.

Lemma load_course_ingested (course : json) : preserves ingested (load_course course).
Proof.
  intros st Hst.
  destruct (get course "metadata" (JDict [])) as [[| | | | | |md]|e] eqn:Hget;
    try (rewrite load_course_raises_early; [exact Hst | intros md'; congruence]).
  destruct (truthy (field md "course_code" JNull)
            && truthy (field md "course_name" JNull)
            && truthy (field md "semester" JNull)) eqn:Hkeys.
  2: { now rewrite (load_course_skips_incomplete course md st Hget Hkeys). }
  destruct course as [| | | | | |cd]; try discriminate.
  assert (Hmd : field cd "metadata" (JDict []) = JDict md).
  { cbn in Hget. unfold field. now inversion Hget. }
  destruct (load_course_chunks cd md st Hmd Hkeys)
    as (ov & outs & units & books & Ec & Hov & Ho & Hu & Hb & Em).
  destruct Hst as (Hnd & Hne & Hch & Hcount).
  unfold ingested. rewrite Ec, Em, upsert_register.
  split; [now apply upsert_nodup|]. split; [now apply upsert_nonempty|]. split.
  - apply Forall_app. split; [exact Hch|]. constructor.
    + destruct Hov as [Hm Ht]. rewrite Hm, Ht. split; [reflexivity | now left].
    + repeat (apply Forall_app; split);
        [ apply (at_most_types md "outcomes" 1) | apply (at_most_types md "syllabus_unit" (syllabus_entries cd))
        | apply (at_most_types md "books" 1) ]; cbn; auto.
  - rewrite upsert_count, filter_app, length_app, Hcount. cbn [filter].
    destruct Hov as [_ Ht]. unfold is_overview at 1. rewrite Ht. cbn [String.eqb].
    rewrite !filter_app.
    rewrite (at_most_not_overview md "outcomes" 1 outs ltac:(discriminate) Ho).
    rewrite (at_most_not_overview md "syllabus_unit" _ units ltac:(discriminate) Hu).
    rewrite (at_most_not_overview md "books" 1 books ltac:(discriminate) Hb).
    cbn. lia.
Qed.

Lemma load_data_preserves_ingested
      (restructured_data : json) (optimization_data : option json) :
  preserves ingested (load_data restructured_data optimization_data).
Proof.
  assert (Hset : forall f : chatbot -> chatbot,
             (forall st, semester_course_map (f st) = semester_course_map st) ->
             (forall st, chunks_data (f st) = chunks_data st) ->
             preserves ingested (modify f)).
  { intros f Hs Hc. apply preserves_modify. intros st H.
    unfold ingested. now rewrite Hs, Hc. }
  unfold load_data.
  apply preserves_bind; [apply preserves_lift | intros courses].
  apply preserves_bind; [apply preserves_lift | intros details].
  apply preserves_bind; [apply Hset; reflexivity | intros _].
  apply preserves_bind;
    [apply preserves_for_each; intros c; apply load_course_ingested | intros _].
  apply preserves_bind.
  - destruct optimization_data as [data|].
    + apply preserves_bind; [apply preserves_lift | intros faq].
      apply preserves_bind; [apply Hset; reflexivity | intros _].
      apply preserves_bind; [apply preserves_lift | intros cm].
      apply Hset; reflexivity.
    + apply preserves_bind; apply Hset || intros; try reflexivity.
      apply Hset; reflexivity.
  - intros _. apply preserves_bind; [apply preserves_read | intros faq].
    apply preserves_bind; [apply preserves_lift | intros n]. apply preserves_ret.
Qed.

(** X2. [load_data] keeps the ingestion invariant, whatever the two
    decoded files are and whether it returns or raises: distinct
    semesters, no empty semester, every chunk with a dictionary as
    metadata and one of the four chunk types, and one overview chunk per
    course of the semester map.  A fresh chatbot satisfies it. *)
Theorem load_data_keeps_ingested
        (restructured_data : json) (optimization_data : option json) (st : chatbot)
        (Hst : ingested st) :
  ingested (snd (load_data restructured_data optimization_data st)).
Proof.
  exact (load_data_preserves_ingested restructured_data optimization_data st Hst).
Qed.

Lemma init_ingested m e : ingested (init m e).
Proof.
  repeat split; cbn; constructor.
Defined.

Lemma load_data_keeps_ingested_witness :
  ingested (snd (load_data (JList [sample_record]) None idle_bot)).
Proof.
  apply (load_data_keeps_ingested (JList [sample_record]) None idle_bot).
  apply init_ingested.
Defined.

(** ** The rows of the vector store *)

Lemma of_Z_inj (a b : Z) : PyStr.of_Z a = PyStr.of_Z b -> a = b.
Proof.
  unfold PyStr.of_Z. intros H.
  assert (Hn : forall z, Z.to_int z <> Decimal.Pos Decimal.Nil
                         /\ Z.to_int z <> Decimal.Neg Decimal.Nil).
  { intros [|p|p]; cbn; split; try discriminate; intros E; inversion E as [E'];
      now apply DecimalPos.Unsigned.to_uint_nonnil in E'. }
  apply DecimalZ.to_int_inj.
  assert (E : NilZero.int_of_string (NilZero.string_of_int (Z.to_int a))
              = NilZero.int_of_string (NilZero.string_of_int (Z.to_int b)))
    by now rewrite H.
  rewrite !NilZero.isi in E by apply Hn. now inversion E.
Qed.

Lemma append_inv_head (p a b : string) : p ++ a = p ++ b -> a = b.
Proof. induction p as [|c p IH]; cbn; [easy|]. intros H. inversion H. auto. Qed.

Lemma numbered_inj (prefix : string) (i j : nat) :
  numbered prefix i = numbered prefix j -> i = j.
Proof.
  unfold numbered. intros H. apply append_inv_head, of_Z_inj in H. lia.
Qed.

Lemma chunk_rows_spec (chunks : list chunk) (i : nat) (r r' : rows) :
  chunk_rows i chunks r = Ok r' ->
  row_documents r' = (row_documents r ++ map content chunks)%list /\
  row_ids r' = (row_ids r ++ map (numbered "chunk_") (seq i (List.length chunks)))%list /\
  List.length (row_metadatas r')
  = (List.length (row_metadatas r) + List.length chunks)%nat.
Proof.
  revert i r. induction chunks as [|c chunks IH]; intros i r; cbn [chunk_rows].
  - intros H. inversion H. cbn. rewrite !app_nil_r. auto.
  - destruct (clean_metadata c) as [meta|e]; [|discriminate]. cbn [Py.bind].
    intros H. apply IH in H. destruct H as (Hd & Hi & Hm).
    cbn [add_row row_documents row_ids row_metadatas] in *.
    rewrite Hd, Hi, Hm, <- !app_assoc, length_app. cbn. repeat split; lia.
Qed.

Lemma semester_rows_spec (m : list (string * list course_summary)) (r : rows) :
  row_documents (semester_rows m r)
  = (row_documents r ++ map (fun kv => semester_content (fst kv) (snd kv)) m)%list /\
  row_metadatas (semester_rows m r)
  = (row_metadatas r ++ map (fun kv => semester_metadata (fst kv) (snd kv)) m)%list /\
  row_ids (semester_rows m r)
  = (row_ids r ++ map (fun kv => ("semester_" ++ fst kv)%string) m)%list.
Proof.
  revert r. induction m as [|[sem courses] m IH]; intros r; cbn [semester_rows map].
  - now rewrite !app_nil_r.
  - destruct (IH (add_row (semester_content sem courses)
                          (semester_metadata sem courses) ("semester_" ++ sem) r))
      as (Hd & Hm & Hi).
    rewrite Hd, Hm, Hi. cbn [add_row row_documents row_ids row_metadatas fst snd].
    now rewrite <- !app_assoc.
Qed.

Lemma faq_rows_spec (faqs : list json) (i : nat) (r r' : rows) :
  faq_rows i faqs r = Ok r' ->
  (exists docs, row_documents r' = (row_documents r ++ docs)%list
                /\ List.length docs = List.length faqs) /\
  row_ids r' = (row_ids r ++ map (numbered "faq_") (seq i (List.length faqs)))%list /\
  List.length (row_metadatas r')
  = (List.length (row_metadatas r) + List.length faqs)%nat.
Proof.
  revert i r. induction faqs as [|faq faqs IH]; intros i r; cbn [faq_rows].
  - intros H. inversion H. cbn. rewrite !app_nil_r.
    split; [exists []; now rewrite app_nil_r | auto].
  - destruct (getitem faq "question") as [q|e]; [|discriminate]. cbn [Py.bind].
    destruct (getitem faq "answer") as [a|e]; [|discriminate]. cbn [Py.bind].
    destruct (get faq "category" (JStr "general")) as [c|e]; [|discriminate].
    cbn [Py.bind]. intros H. apply IH in H. destruct H as ((docs & Hd & Hl) & Hi & Hm).
    cbn [add_row row_documents row_ids row_metadatas] in *.
    rewrite Hd, Hi, Hm, <- !app_assoc, !length_app. cbn.
    split; [eexists; split; [reflexivity | cbn; now rewrite Hl] | split; [reflexivity | lia]].
Qed.

Lemma NoDup_map_inj {A B : Type} (f : A -> B) (l : list A) :
  (forall x y, f x = f y -> x = y) -> NoDup l -> NoDup (map f l).
Proof.
  intros Hf. induction 1 as [|x l Hx Hl IH]; cbn; constructor; auto.
  rewrite in_map_iff. intros (y & E & Hy). apply Hf in E. now subst.
Qed.

(** X3. When the rows of the vector store can be built, the three lists
    have one length, namely the number of chunks plus the number of
    semesters plus the number of FAQ entries, the documents of the chunks
    come first and in order, and, the semesters of the map being
    distinct, no two rows have the same id. *)
Theorem build_rows_ids_distinct
        (st : chatbot) (r : rows)
        (Hbuilt : build_rows st = Ok r)
        (Hsem : NoDup (map fst (semester_course_map st))) :
  NoDup (row_ids r) /\
  List.length (row_documents r) = List.length (row_ids r) /\
  List.length (row_metadatas r) = List.length (row_ids r) /\
  firstn (List.length (chunks_data st)) (row_documents r)
  = map content (chunks_data st) /\
  exists faqs, iter (faq_data st) = Ok faqs /\
    List.length (row_ids r)
    = (List.length (chunks_data st) + List.length (semester_course_map st)
       + List.length faqs)%nat.
Proof.
  unfold build_rows in Hbuilt.
  destruct (chunk_rows 0 (chunks_data st) (mkRows [] [] [])) as [r1|e] eqn:E1;
    [|discriminate].
  cbn [Py.bind] in Hbuilt.
  destruct (iter (faq_data st)) as [faqs|e] eqn:Ef; [|discriminate].
  cbn [Py.bind] in Hbuilt.
  apply chunk_rows_spec in E1. destruct E1 as (Hd1 & Hi1 & Hm1).
  destruct (semester_rows_spec (semester_course_map st) r1) as (Hd2 & Hm2 & Hi2).
  apply faq_rows_spec in Hbuilt. destruct Hbuilt as ((docs & Hd3 & Hl3) & Hi3 & Hm3).
  cbn [row_documents row_ids row_metadatas app List.length] in *.
  assert (Hlen : List.length (row_ids r)
                 = (List.length (chunks_data st) + List.length (semester_course_map st)
                    + List.length faqs)%nat).
  { rewrite Hi3, Hi2, Hi1, !length_app, !length_map, !length_seq. lia. }
  split; [|split; [|split; [|split]]].
  - rewrite Hi3, Hi2, Hi1.
    assert (Hc : forall x, In x (map (numbered "chunk_") (seq 0 (List.length (chunks_data st))))
                           -> exists t, x = String "c" t).
    { intros x Hx. apply in_map_iff in Hx. destruct Hx as (i & <- & _). cbn. eauto. }
    assert (Hs : forall x, In x (map (fun kv : string * list course_summary =>
                                        "semester_" ++ fst kv) (semester_course_map st))
                           -> exists t, x = String "s" t).
    { intros x Hx. apply in_map_iff in Hx. destruct Hx as (kv & <- & _). cbn. eauto. }
    assert (Hf : forall x, In x (map (numbered "faq_") (seq 0 (List.length faqs)))
                           -> exists t, x = String "f" t).
    { intros x Hx. apply in_map_iff in Hx. destruct Hx as (i & <- & _). cbn. eauto. }
    apply NoDup_app; [apply NoDup_app| |].
    + apply NoDup_map_inj; [apply numbered_inj | apply seq_NoDup].
    + rewrite <- (map_map fst (fun k => "semester_" ++ k)).
      apply NoDup_map_inj; [intros x y; apply append_inv_head | exact Hsem].
    + intros x Hx Hx'. apply Hc in Hx. apply Hs in Hx'.
      destruct Hx as [t ->]. destruct Hx' as [t' Ht']. discriminate.
    + apply NoDup_map_inj; [apply numbered_inj | apply seq_NoDup].
    + intros x Hx Hx'. apply Hf in Hx'. destruct Hx' as [t ->].
      apply in_app_or in Hx. destruct Hx as [Hx|Hx];
        [apply Hc in Hx | apply Hs in Hx]; destruct Hx as [t' Ht']; discriminate.
  - rewrite Hlen, Hd3, Hd2, Hd1, !length_app, !length_map. lia.
  - rewrite Hlen, Hm3, Hm2, length_app, Hm1, !length_map. cbn. lia.
  - rewrite Hd3, Hd2, Hd1, <- !app_assoc.
    rewrite <- (length_map content (chunks_data st)) at 1.
    now rewrite firstn_app, Nat.sub_diag, firstn_all, app_nil_r.
  - exists faqs. split; [reflexivity | exact Hlen].
Qed.

Lemma lookup_dict_set_same (k : string) (v : json) (d : list (string * json)) :
  lookup k (dict_set k v d) = Some v.
Proof.
  induction d as [|[k' v'] d IH]; cbn; [now rewrite String.eqb_refl|].
  destruct (String.eqb k k') eqn:E; cbn; [now rewrite String.eqb_refl|].
  now rewrite E.
Qed.

Lemma lookup_dict_set_other (k k' : string) (v : json) (d : list (string * json)) :
  k <> k' -> lookup k (dict_set k' v d) = lookup k d.
Proof.
  intros Hne. induction d as [|[k0 v0] d IH]; cbn.
  - now apply String.eqb_neq in Hne as ->.
  - destruct (String.eqb_spec k' k0) as [->|H0]; cbn.
    + now apply String.eqb_neq in Hne as ->.
    + now rewrite IH.
Qed.

Lemma dict_set_strings (k s : string) (d : list (string * json)) :
  Forall (fun kv => exists t, snd kv = JStr t) d ->
  Forall (fun kv => exists t, snd kv = JStr t) (dict_set k (JStr s) d).
Proof.
  induction 1 as [|[k' v'] d Hv Hd IH]; cbn.
  - repeat constructor. cbn. eauto.
  - destruct (String.eqb k k'); constructor; cbn; eauto.
Qed.

Lemma lookup_cleaned (k : string) (md : list (string * json)) :
  NoDup (map fst md) ->
  lookup k (map (fun kv => (fst kv, JStr (str (snd kv))))
                (filter (fun kv => negb (is_none (snd kv))) md))
  = match lookup k md with
    | Some JNull | None => None
    | Some v => Some (JStr (str v))
    end.
Proof.
  induction md as [|[k' v'] md IH]; cbn [map filter lookup fst snd]; [reflexivity|].
  intros Hnd. inversion Hnd as [|? ? Hk' Hmd]; subst. specialize (IH Hmd).
  destruct (String.eqb_spec k k') as [->|Hne].
  - destruct v'; cbn [is_none negb map lookup fst snd]; rewrite ?String.eqb_refl;
      try reflexivity.
    rewrite IH. apply lookup_none_not_in in Hk'. now rewrite Hk'.
  - destruct (is_none v'); cbn [negb map lookup fst snd]; [exact IH|].
    apply String.eqb_neq in Hne. now rewrite Hne.
Qed.

(** X4. The metadata stored with a chunk: every value is a string; a key
    of the course metadata whose value is [None] is dropped and every
    other one keeps [str] of its value; [chunk_type] and [source] are the
    chunk's type and "syllabus", whatever the course metadata says under
    these two keys. *)
Theorem clean_metadata_strings
        (c : chunk) (md : list (string * json))
        (Hmd : metadata c = JDict md)
        (Hkeys : NoDup (map fst md)) :
  exists cleaned,
    clean_metadata c = Ok cleaned /\
    Forall (fun kv => exists s, snd kv = JStr s) cleaned /\
    lookup "chunk_type" cleaned = Some (JStr (chunk_type c)) /\
    lookup "source" cleaned = Some (JStr "syllabus") /\
    forall k, k <> "chunk_type" -> k <> "source" ->
      lookup k cleaned
      = match lookup k md with
        | Some JNull | None => None
        | Some v => Some (JStr (str v))
        end.
Proof.
  unfold clean_metadata. rewrite Hmd. cbn [items Py.bind]. eexists.
  split; [reflexivity|]. split; [|split; [|split]].
  - do 2 apply dict_set_strings. apply Forall_forall. intros kv Hkv.
    apply in_map_iff in Hkv. destruct Hkv as (x & <- & _). cbn. eauto.
  - rewrite lookup_dict_set_other by discriminate. apply lookup_dict_set_same.
  - apply lookup_dict_set_same.
  - intros k H1 H2. rewrite !lookup_dict_set_other by assumption.
    now apply lookup_cleaned.
Qed.

Lemma clean_metadata_strings_witness :
  exists cleaned,
    clean_metadata (mkChunk "Course Overview" (JDict sample_md) "overview") = Ok cleaned /\
    lookup "semester" cleaned = Some (JStr "1").
Proof.
  destruct (clean_metadata_strings
              (mkChunk "Course Overview" (JDict sample_md) "overview") sample_md eq_refl)
    as (cleaned & E & _ & _ & _ & H).
  - repeat constructor; cbn; intuition discriminate.
  - exists cleaned. split; [exact E|]. now rewrite H by discriminate.
Defined.

Lemma firstn_plus {A : Type} (a b : nat) (l : list A) :
  firstn (a + b) l = (firstn a l ++ firstn b (skipn a l))%list.
Proof.
  revert l. induction a as [|a IH]; intros [|x l]; cbn; try reflexivity.
  - now rewrite firstn_nil.
  - now rewrite IH.
Qed.

Lemma slices_concat {A : Type} (s c : nat) (l : list A) :
  concat (map (fun i => slice i (i + s) l) (map (fun k => 0 + k * s) (seq 0 c)))
  = firstn (c * s) l.
Proof.
  induction c as [|c IH]; [reflexivity|].
  rewrite seq_S, !map_app, concat_app, IH. cbn [map concat plus].
  unfold slice. rewrite app_nil_r.
  replace (c * s + s - c * s) with s by lia.
  replace (S c * s) with (c * s + s) by lia. now rewrite firstn_plus.
Qed.

(** X5. The batches cover the rows: the slices taken at the indices
    [range(0, n, 100)] of a list of length [n], put end to end, give the
    list back, and every one of them has between 1 and 100 items. *)
Theorem batches_cover {A : Type} (l : list A) (n : nat)
        (Hn : List.length l = n) :
  concat (map (fun i => slice i (i + batch_size) l) (range 0 n batch_size)) = l /\
  Forall (fun i => 1 <= List.length (slice i (i + batch_size) l) <= batch_size)
         (range 0 n batch_size) /\
  List.length (range 0 n batch_size) = (n + 99) / 100.
Proof.
  unfold range, batch_size. cbn [Nat.sub]. rewrite Nat.sub_0_r.
  assert (Hdiv : n + 99 = 100 * ((n + 99) / 100) + (n + 99) mod 100)
    by (apply Nat.div_mod_eq).
  assert (Hmod : (n + 99) mod 100 < 100) by (apply Nat.mod_upper_bound; lia).
  set (c := (n + 99) / 100) in *.
  split; [|split].
  - rewrite slices_concat. apply firstn_all2. lia.
  - apply Forall_forall. intros i Hi. apply in_map_iff in Hi.
    destruct Hi as (k & <- & Hk). apply in_seq in Hk.
    unfold slice. rewrite length_firstn, length_skipn. lia.
  - now rewrite length_map, length_seq.
Qed.

Lemma batches_cover_witness :
  concat (map (fun i => slice i (i + batch_size) (seq 0 250))
              (range 0 250 batch_size))
  = seq 0 250.
Proof.
  exact (proj1 (batches_cover (seq 0 250) 250 (length_seq 250 0))).
Defined.

Lemma chunk_rows_dicts (chunks : list chunk) (i : nat) (r : rows) :
  Forall (fun c => is_dict (metadata c) = true) chunks ->
  exists r', chunk_rows i chunks r = Ok r'.
Proof.
  intros H. revert i r. induction H as [|c chunks Hc _ IH]; intros i r.
  - now exists r.
  - cbn [chunk_rows]. unfold clean_metadata.
    destruct (metadata c); try discriminate. cbn [items Py.bind]. apply IH.
Qed.

Lemma faq_rows_raises (faqs : list json) (i : nat) (r : rows) (e : exn) :
  faq_rows i faqs r = Raise e ->
  exists faq, In faq faqs /\
    (getitem faq "question" = Raise e \/ getitem faq "answer" = Raise e).
Proof.
  revert i r. induction faqs as [|faq faqs IH]; intros i r; cbn [faq_rows];
    [discriminate|].
  destruct (getitem faq "question") as [q|e1] eqn:Eq.
  2: { cbn. intros H. inversion H; subst. exists faq. split; [now left | now left]. }
  cbn [Py.bind].
  destruct (getitem faq "answer") as [a|e1] eqn:Ea.
  2: { cbn. intros H. inversion H; subst. exists faq. split; [now left | now right]. }
  cbn [Py.bind].
  assert (Hc : exists c, get faq "category" (JStr "general") = Ok c).
  { destruct faq; try discriminate. cbn. eauto. }
  destruct Hc as [c ->]. cbn [Py.bind]. intros H. apply IH in H.
  destruct H as (f & Hin & Hf). exists f. split; [now right | exact Hf].
Qed.

(** X6. On a state that satisfies the ingestion invariant, building the
    rows of the vector store can only fail on the FAQ data: either
    [faq_data] cannot be iterated, or one of its entries has no
    "question" or no "answer" (or is not a dictionary). *)
Theorem build_rows_fails_only_on_faq
        (st : chatbot) (e : exn)
        (Hst : ingested st)
        (Hfail : build_rows st = Raise e) :
  iter (faq_data st) = Raise e \/
  exists faqs faq,
    iter (faq_data st) = Ok faqs /\ In faq faqs /\
    (getitem faq "question" = Raise e \/ getitem faq "answer" = Raise e).
Proof.
  unfold build_rows in Hfail.
  destruct Hst as (_ & _ & Hch & _).
  destruct (chunk_rows_dicts (chunks_data st) 0 (mkRows [] [] [])) as [r1 E1].
  { eapply Forall_impl; [|exact Hch]. now intros c [Hc _]. }
  rewrite E1 in Hfail. cbn [Py.bind] in Hfail.
  destruct (iter (faq_data st)) as [faqs|e'] eqn:Ef.
  - cbn [Py.bind] in Hfail. right. apply faq_rows_raises in Hfail.
    destruct Hfail as (faq & Hin & Hf). now exists faqs, faq.
  - cbn in Hfail. left. now inversion Hfail.
Qed.

Lemma send_batch_keeps_state created r i st : snd (send_batch created r i st) = st.
Proof.
  unfold send_batch, bindM, read, lift.
  destruct (call (embedding_model st _)); reflexivity.
Qed.

Lemma retrieve_context_active (st : chatbot) (q : string) (k : Z) (coll : collection_t) :
  collection st = Some coll -> retrieve_context st q k <> Raise not_initialized.
Proof.
  intros Hc H. unfold retrieve_context in H. rewrite Hc in H.
  assert (N : no_value_error (A := list doc) (Raise not_initialized)).
  { rewrite <- H. apply nve_bind; [apply nve_enhance_query|]. intros. nve. }
  exact N.
Qed.

Lemma create_store_state
      (client : vector_client) (collection_name : string) (st : chatbot) (created : store) :
  create_collection client collection_name = Returned created ->
  snd (create_enhanced_vector_store client collection_name st)
  = set_collection (Some (store_collection created)) st.
Proof.
  intros Hcreated. unfold create_enhanced_vector_store.
  assert (H : forall st0,
             preserves (fun s => s = st0)
               (bindM (read (fun st => st)) (fun st =>
                  bindM (lift (build_rows st)) (fun r =>
                    for_each (range 0 (List.length (row_documents r)) batch_size)
                             (send_batch created r))))).
  { intros st0. apply preserves_bind; [apply preserves_read | intros s].
    apply preserves_bind; [apply preserves_lift | intros r].
    apply preserves_for_each. intros i s0 ->. apply send_batch_keeps_state. }
  destruct (delete_collection client collection_name);
    unfold bindM at 1, lift at 1; rewrite Hcreated; cbn [call];
    unfold bindM at 1, modify at 1; now apply H.
Qed.

(** X7. Once [create_collection] has returned, [create_enhanced_vector_store]
    changes nothing of the chatbot but [self.collection], which is the
    new collection; this also when building or sending the rows raises,
    and whether or not [delete_collection] failed.  [retrieve_context]
    then no longer raises the "not initialized" error. *)
Theorem create_store_sets_collection
        (client : vector_client) (collection_name : string) (st : chatbot)
        (created : store)
        (Hcreated : create_collection client collection_name = Returned created) :
  let st' := snd (create_enhanced_vector_store client collection_name st) in
  st' = set_collection (Some (store_collection created)) st /\
  forall q k, retrieve_context st' q k <> Raise not_initialized.
Proof.
  cbv zeta.
  pose proof (create_store_state client collection_name st created Hcreated) as E.
  split; [exact E|]. intros q k. rewrite E.
  now apply (retrieve_context_active _ q k (store_collection created)).
Qed.

Lemma load_course_chunks_witness :
  exists overview rest,
    chunks_data (snd (load_course sample_record idle_bot)) = overview :: rest /\
    chunk_of sample_md "overview" overview.
Proof.
  destruct (load_course_chunks
              [("metadata", JDict sample_md);
               ("syllabus", JList [JDict [("unit_number", JInt 1); ("title", JStr "Matrices");
                                          ("topics", JList [JStr "Rank"; JStr "Inverse"])]])]
              sample_md idle_bot eq_refl eq_refl)
    as (ov & outs & units & books & E & Hov & _).
  exists ov, (outs ++ units ++ books)%list. split; [exact E | exact Hov].
Defined.

Lemma build_rows_ids_distinct_witness :
  exists r, build_rows sample_loaded = Ok r /\ NoDup (row_ids r).
Proof.
  destruct (build_rows sample_loaded) as [r|e] eqn:E; [|vm_compute in E; discriminate].
  exists r. split; [reflexivity|].
  apply (build_rows_ids_distinct sample_loaded r E).
  vm_compute. repeat constructor. intros [].
Defined.

Lemma build_rows_fails_only_on_faq_witness :
  iter (faq_data faq_without_answer) = Raise (KeyError "answer") \/
  exists faqs faq,
    iter (faq_data faq_without_answer) = Ok faqs /\ In faq faqs /\
    (getitem faq "question" = Raise (KeyError "answer")
     \/ getitem faq "answer" = Raise (KeyError "answer")).
Proof.
  apply (build_rows_fails_only_on_faq faq_without_answer (KeyError "answer")).
  - repeat split; cbn; constructor.
  - reflexivity.
Defined.

Lemma create_store_sets_collection_witness :
  collection (snd (create_enhanced_vector_store simple_client "syllabus_collection_ce"
                     sample_loaded))
  = Some (store_collection empty_store).
Proof.
  rewrite (proj1 (create_store_sets_collection simple_client "syllabus_collection_ce"
                    sample_loaded empty_store eq_refl)).
  reflexivity.
Defined.

(** ** More on query enhancement *)

Lemma lower_lower_char (c : ascii) : PyStr.lower_char (PyStr.lower_char c) = PyStr.lower_char c.
Proof. destruct c as [[] [] [] [] [] [] [] []]; reflexivity. Qed.

Lemma upper_lower_char (c : ascii) : PyStr.upper_char (PyStr.lower_char c) = PyStr.upper_char c.
Proof. destruct c as [[] [] [] [] [] [] [] []]; reflexivity. Qed.

Lemma lower_lower (s : string) : PyStr.lower (PyStr.lower s) = PyStr.lower s.
Proof.
  unfold PyStr.lower. induction s as [|c s IH]; cbn; [reflexivity|].
  now rewrite lower_lower_char, IH.
Qed.

Lemma upper_lower (s : string) : PyStr.upper (PyStr.lower s) = PyStr.upper s.
Proof.
  unfold PyStr.upper, PyStr.lower. induction s as [|c s IH]; cbn; [reflexivity|].
  now rewrite upper_lower_char, IH.
Qed.

(** X8. The terms [enhance_query] appends depend on the query only up
    to the case of its letters, and the query itself is returned as
    written: two queries with the same lowercase form either both raise
    the same exception or are each returned followed by the same suffix. *)
Theorem enhance_query_ignores_case
        (st : chatbot) (q q' : string)
        (Hcase : PyStr.lower q = PyStr.lower q') :
  match enhance_query st q, enhance_query st q' with
  | Ok r, Ok r' => exists suffix, r = q ++ suffix /\ r' = q' ++ suffix
  | Raise e, Raise e' => e = e'
  | _, _ => False
  end.
Proof.
  assert (Hup : PyStr.upper q = PyStr.upper q')
    by now rewrite <- (upper_lower q), <- (upper_lower q'), Hcase.
  unfold enhance_query, course_code_terms. cbv zeta. rewrite <- Hcase, <- Hup.
  set (t1 := semester_terms st (PyStr.lower q)).
  destruct (match Re.search Re.course_code_pattern (PyStr.upper q) with
            | Some m =>
                match details_lookup (Re.group0 m) (course_details st) with
                | Some course =>
                    md <- getitem course "metadata" ;;
                    name <- get md "course_name" (JStr EmptyString) ;; Ok [name]
                | None => Ok []
                end
            | None => Ok []
            end) as [t2|e]; cbn [Py.bind]; [|reflexivity].
  destruct (items (concept_mapping st)) as [mapping|e]; cbn [Py.bind]; [|reflexivity].
  destruct (concept_terms mapping (PyStr.lower q) (t1 ++ t2)%list) as [[|t ts]|e];
    cbn [Py.bind]; [| |reflexivity].
  - exists EmptyString. now rewrite !append_empty_r.
  - destruct (join_items " " (t :: ts)) as [joined|e]; cbn [Py.bind]; [|reflexivity].
    now exists (" " ++ joined).
Qed.

Lemma enhance_query_ignores_case_witness :
  exists suffix,
    enhance_query third_semester_bot "Subjects in SEM 3" = Ok ("Subjects in SEM 3" ++ suffix) /\
    enhance_query third_semester_bot "subjects in sem 3" = Ok ("subjects in sem 3" ++ suffix).
Proof.
  pose proof (enhance_query_ignores_case third_semester_bot
                "Subjects in SEM 3" "subjects in sem 3" eq_refl) as H.
  destruct (enhance_query third_semester_bot "Subjects in SEM 3") as [r|e] eqn:E1;
    [|vm_compute in E1; discriminate].
  destruct (enhance_query third_semester_bot "subjects in sem 3") as [r'|e] eqn:E2;
    [|vm_compute in E2; discriminate].
  destruct H as (suffix & -> & ->). now exists suffix.
Defined.

Lemma enhance_query_terms st q :
  string_tables st ->
  exists sem_names code_names extra,
    semester_terms st (PyStr.lower q) = map JStr sem_names /\
    course_code_terms st q = Ok (map JStr code_names) /\
    enhance_query st q = Ok (with_terms q (sem_names ++ code_names ++ extra)%list).
Proof.
  intros Hwf.
  assert (Hsem : exists sem_names,
             semester_terms st (PyStr.lower q) = map JStr sem_names).
  { unfold semester_terms.
    destruct (Re.search Re.semester_pattern (PyStr.lower q)) as [m|]; [|now exists []].
    destruct (Re.group1 m) as [d|]; [|now exists []].
    destruct (lookup d _) as [courses|] eqn:E; [|now exists []].
    exact (proj1 Hwf _ _ E). }
  destruct Hsem as [sem_names Hsem].
  destruct (course_code_terms_strings st q Hwf) as [code_names Hcode].
  destruct Hwf as (_ & _ & mapping & Hm & Hids).
  destruct (concept_terms_strings mapping (PyStr.lower q)
              (sem_names ++ code_names)%list Hids) as [extra Hc].
  exists sem_names, code_names, extra. split; [exact Hsem|]. split; [exact Hcode|].
  unfold enhance_query. cbv zeta. rewrite Hsem, Hcode, Hm. cbn [Py.bind items].
  rewrite <- map_app, Hc. cbn [Py.bind]. rewrite <- app_assoc.
  destruct (sem_names ++ code_names ++ extra)%list as [|t ts] eqn:E; [reflexivity|].
  cbn [map]. change (JStr t :: map JStr ts) with (map JStr (t :: ts)).
  unfold join_items. rewrite strings_map_JStr. reflexivity.
Qed.

(** X9. When the first course-code-shaped token of the uppercased query
    is the code of a course in [course_details], and the tables hold
    strings, [enhance_query] returns a string that contains the query and
    the name of that course; the code may be typed in any case. *)
Theorem enhance_query_course_name
        (st : chatbot) (q : string) (m : Re.match_obj)
        (course : json) (md : list (string * json)) (name : string)
        (Hwf : string_tables st)
        (Hsearch : Re.search Re.course_code_pattern (PyStr.upper q) = Some m)
        (Hknown : details_lookup (Re.group0 m) (course_details st) = Some course)
        (Hmd : getitem course "metadata" = Ok (JDict md))
        (Hname : field md "course_name" (JStr EmptyString) = JStr name) :
  exists r, enhance_query st q = Ok r /\ occurs_in q r /\ occurs_in name r.
Proof.
  destruct (enhance_query_terms st q Hwf) as (sn & cn & extra & _ & Hcode & Hq).
  unfold course_code_terms in Hcode. rewrite Hsearch, Hknown, Hmd in Hcode.
  cbn [Py.bind get] in Hcode. fold (field md "course_name" (JStr EmptyString)) in Hcode.
  rewrite Hname in Hcode.
  destruct cn as [|n [|n' cn]]; try discriminate. inversion Hcode; subst n.
  eexists. split; [exact Hq|]. unfold with_terms.
  destruct (sn ++ [name] ++ extra)%list as [|t ts] eqn:E.
  - now destruct sn.
  - split; [apply occurs_in_append_l, occurs_in_refl|].
    do 2 apply occurs_in_append_r. apply occurs_in_join. rewrite <- E.
    apply in_or_app. right. now left.
Qed.

Lemma details_bot_tables : string_tables details_bot.
Proof.
  split; [|split].
  - intros sem courses H. discriminate.
  - intros code course H. cbn in H.
    destruct (String.eqb code "23BS1101"); [|discriminate]. inversion H; subst.
    exists sample_md, "Engineering Mathematics". split; reflexivity.
  - exists []. split; [reflexivity|]. intros c v [].
Defined.

Lemma enhance_query_course_name_witness :
  exists r,
    enhance_query details_bot "what is 23bs1101 about" = Ok r /\
    occurs_in "Engineering Mathematics" r.
Proof.
  destruct (enhance_query_course_name details_bot "what is 23bs1101 about"
              (Re.mkMatch 8 16 "23BS1101" None) sample_record sample_md
              "Engineering Mathematics" details_bot_tables eq_refl eq_refl eq_refl eq_refl)
    as (r & Hr & _ & Hn).
  exists r. split; assumption.
Defined.

(** ** The prompt *)

Lemma occurs_in_trans (a b c : string) : occurs_in a b -> occurs_in b c -> occurs_in a c.
Proof.
  intros (p & s & ->) (p' & s' & ->). exists (p' ++ p), (s ++ s').
  now rewrite !append_assoc.
Qed.

Lemma compose_prompt_contains (q ctx : string) :
  occurs_in q (compose_prompt q ctx) /\ occurs_in ctx (compose_prompt q ctx).
Proof.
  assert (Hline : forall (lines : list string) (line x : string),
             In line lines -> occurs_in x line ->
             occurs_in x (PyStr.join PyStr.nl lines)).
  { intros lines line x Hin Hx. eapply occurs_in_trans; [exact Hx|].
    now apply occurs_in_join. }
  unfold compose_prompt, default_prompt, syllabus_prompt.
  destruct (asks_syllabus_only q); split.
  - apply Hline with ("            Student's Question: " ++ q);
      [cbn; repeat ((left; reflexivity) || right) | apply occurs_in_append_r, occurs_in_refl].
  - apply Hline with ("            " ++ ctx);
      [cbn; repeat ((left; reflexivity) || right) | apply occurs_in_append_r, occurs_in_refl].
  - apply Hline with ("        Student's Question: " ++ q);
      [cbn; repeat ((left; reflexivity) || right) | apply occurs_in_append_r, occurs_in_refl].
  - apply Hline with ("        " ++ ctx);
      [cbn; repeat ((left; reflexivity) || right) | apply occurs_in_append_r, occurs_in_refl].
Qed.

Lemma context_parts_contents (docs : list doc) (parts : list string) :
  context_parts docs = Ok parts ->
  forall d, In d docs -> exists part, In part parts /\ occurs_in (doc_content d) part.
Proof.
  revert parts. induction docs as [|d0 docs IH]; intros parts; cbn [context_parts].
  - intros _ d [].
  - destruct (get (doc_metadata d0) "source" (JStr "unknown")) as [src|e]; [|discriminate].
    cbn [Py.bind].
    destruct (get (doc_metadata d0) "course_code" (JStr "N/A")) as [code|e]; [|discriminate].
    cbn [Py.bind]. destruct (context_parts docs) as [tl|e]; [|discriminate].
    cbn [Py.bind].
    remember ("Context Snippet (Source: " ++ str src ++ ", Course: " ++ str code
              ++ "):" ++ PyStr.nl ++ doc_content d0) as part0 eqn:Ep.
    intros H. injection H as <-. intros d [<-|Hd].
    + exists part0. split; [now left|]. rewrite Ep.
      do 6 apply occurs_in_append_r. apply occurs_in_refl.
    + destruct (IH tl eq_refl d Hd) as (part & Hin & Hocc). exists part.
      split; [now right | exact Hocc].
Qed.

(** X10. The prompt that [generate_enhanced_response] sends to the model,
    with either template, contains the question as asked and the content
    of every retrieved document. *)
Theorem prompt_contains_question_and_documents
        (q : string) (context_docs : list doc) (parts : list string)
        (Hparts : context_parts context_docs = Ok parts) :
  let prompt := compose_prompt q (PyStr.join (PyStr.nl ++ "---" ++ PyStr.nl) parts) in
  occurs_in q prompt /\
  (forall d, In d context_docs -> occurs_in (doc_content d) prompt) /\
  forall st, generate_enhanced_response st q context_docs
             = match model st prompt with
               | Returned text => Ok text
               | Failed error_message =>
                   Ok (if PyStr.contains "API key not valid" error_message
                       then api_key_message else error_prefix ++ error_message)
               end.
Proof.
  cbv zeta.
  destruct (compose_prompt_contains q (PyStr.join (PyStr.nl ++ "---" ++ PyStr.nl) parts))
    as [Hq Hctx].
  split; [exact Hq|]. split.
  - intros d Hd.
    destruct (context_parts_contents context_docs parts Hparts d Hd) as (part & Hin & Hocc).
    eapply occurs_in_trans; [exact Hocc|].
    eapply occurs_in_trans; [|exact Hctx]. now apply occurs_in_join.
  - intros st. unfold generate_enhanced_response. rewrite Hparts. cbn [Py.bind].
    destruct (model st _) as [text|msg]; [reflexivity|].
    now destruct (PyStr.contains _ msg).
Qed.

Lemma prompt_contains_question_and_documents_witness :
  occurs_in "Unit 1: Matrices"
    (compose_prompt "give me the syllabus for 23BS1101"
       (PyStr.join (PyStr.nl ++ "---" ++ PyStr.nl)
          ["Context Snippet (Source: syllabus, Course: 23BS1101):" ++ PyStr.nl
           ++ "Unit 1: Matrices"])).
Proof.
  exact (proj1 (proj2 (prompt_contains_question_and_documents
                  "give me the syllabus for 23BS1101"
                  [mkDoc "Unit 1: Matrices"
                         (JDict [("source", JStr "syllabus"); ("course_code", JStr "23BS1101")])
                         half]
                  _ eq_refl))
               (mkDoc "Unit 1: Matrices"
                      (JDict [("source", JStr "syllabus"); ("course_code", JStr "23BS1101")])
                      half)
               (or_introl eq_refl)).
Defined.

(** ** Relevant courses and the order of retrieval *)

Lemma ltb_irrefl (a : string) : String.ltb a a = false.
Proof.
  unfold String.ltb. pose proof (String.compare_antisym a a) as H.
  destruct (String.compare a a); cbn in H; try reflexivity; discriminate.
Qed.

Lemma ltb_asym (a b : string) : String.ltb a b = true -> String.ltb b a = true -> False.
Proof.
  unfold String.ltb. rewrite (String.compare_antisym a b).
  destruct (String.compare b a); cbn; discriminate.
Qed.

Lemma strictly_sorted_unique (l1 l2 : list string) :
  StronglySorted lt_str l1 -> StronglySorted lt_str l2 ->
  (forall x, In x l1 <-> In x l2) -> l1 = l2.
Proof.
  intros H1. revert l2. induction H1 as [|x t1 Ht1 IH Hx]; intros l2 H2 Hin.
  - destruct l2 as [|y t2]; [reflexivity|]. now elim (proj2 (Hin y) (or_introl eq_refl)).
  - destruct H2 as [|y t2 Ht2 Hy]; [now elim (proj1 (Hin x) (or_introl eq_refl))|].
    rewrite Forall_forall in Hx, Hy.
    assert (Exy : x = y).
    { destruct (proj1 (Hin x) (or_introl eq_refl)) as [E|Hxt2]; [now symmetry|].
      destruct (proj2 (Hin y) (or_introl eq_refl)) as [E|Hyt1]; [exact E|].
      elim (ltb_asym x y); [now apply Hx | now apply Hy]. }
    subst y. f_equal. apply IH; [exact Ht2|].
    intros z. split; intros Hz.
    + destruct (proj1 (Hin z) (or_intror Hz)) as [E|H]; [|exact H]. subst z.
      specialize (Hx x Hz). unfold lt_str in Hx. now rewrite ltb_irrefl in Hx.
    + destruct (proj2 (Hin z) (or_intror Hz)) as [E|H]; [|exact H]. subst z.
      specialize (Hy x Hz). unfold lt_str in Hy. now rewrite ltb_irrefl in Hy.
Qed.

Lemma course_labels_inv (docs : list doc) (labels : list string) :
  course_labels docs = Ok labels ->
  Forall (fun d => is_dict (doc_metadata d) = true) docs.
Proof.
  revert labels. induction docs as [|d docs IH]; intros labels; [constructor|].
  cbn [course_labels].
  destruct (doc_metadata d) as [| | | | | |md] eqn:Em; try discriminate.
  cbn [get Py.bind]. intros H. constructor; [now rewrite Em|].
  destruct (truthy _); [|now apply (IH labels)].
  destruct (course_labels docs) as [tl|e]; [|discriminate]. now apply (IH tl).
Qed.

(** X11. [relevant_courses] depends only on which documents were
    retrieved: two calls of [chat] that return, and whose retrieved
    documents are the same up to order and repetition, give the same
    list of relevant courses. *)
Theorem relevant_courses_order_free
        (st st' : chatbot) (q q' : string) (n n' : Z)
        (docs docs' : list doc) (r r' : chat_result)
        (Hdocs : retrieve_context st q n = Ok docs)
        (Hdocs' : retrieve_context st' q' n' = Ok docs')
        (Hchat : chat st q n = Ok r)
        (Hchat' : chat st' q' n' = Ok r')
        (Hsame : same_documents docs docs') :
  relevant_courses r = relevant_courses r'.
Proof.
  assert (Hrel : forall st q n docs r,
             retrieve_context st q n = Ok docs -> chat st q n = Ok r ->
             relevant_courses r
             = sorted (distinct (map course_label (filter has_course_code docs)))).
  { clear. intros st q n docs r Hd Hc. unfold chat in Hc. rewrite Hd in Hc.
    cbn [Py.bind] in Hc.
    destruct (generate_enhanced_response st q docs) as [text|e]; [|discriminate].
    cbn [Py.bind] in Hc.
    destruct (course_labels docs) as [labels|e] eqn:El; [|discriminate].
    cbn [Py.bind] in Hc. inversion Hc; subst. cbn [relevant_courses].
    rewrite (course_labels_dicts docs (course_labels_inv docs labels El)) in El.
    now inversion El. }
  rewrite (Hrel _ _ _ _ _ Hdocs Hchat), (Hrel _ _ _ _ _ Hdocs' Hchat').
  apply strictly_sorted_unique.
  - apply sorted_strictly; [apply sorted_nodup, NoDup_nodup | apply sorted_sorted].
  - apply sorted_strictly; [apply sorted_nodup, NoDup_nodup | apply sorted_sorted].
  - intros x. rewrite !sorted_in. unfold distinct. rewrite !nodup_In, !in_map_iff.
    split; intros (d & E & Hd); exists d; (split; [exact E|]);
      apply filter_In in Hd; apply filter_In; destruct Hd as [Hin Hc];
      (split; [now apply Hsame | exact Hc]).
Qed.

Lemma relevant_courses_order_free_witness :
  exists r r',
    chat two_names_bot "what is 23CS3301" 10 = Ok r /\
    chat reversed_names_bot "what is 23CS3301" 10 = Ok r' /\
    relevant_courses r = relevant_courses r'.
Proof.
  eexists _, _. split; [reflexivity|]. split; [reflexivity|].
  apply (relevant_courses_order_free two_names_bot reversed_names_bot
           "what is 23CS3301" "what is 23CS3301" 10 10 _ _ _ _
           eq_refl eq_refl eq_refl eq_refl).
  intros d. cbn. tauto.
Defined.

(** ** Datasets, their names and their paths *)

Lemma string_length_append (a b : string) :
  String.length (a ++ b) = String.length a + String.length b.
Proof. induction a as [|c a IH]; cbn; [reflexivity | now rewrite IH]. Qed.

Lemma given_some (r : string) : r <> EmptyString -> given (Some r) = true.
Proof. intros H. cbn. now apply String.eqb_neq in H as ->. Qed.

Lemma or_else_some (r default : string) :
  r <> EmptyString -> or_else (Some r) default = r.
Proof. intros H. cbn. now apply String.eqb_neq in H as ->. Qed.

Lemma join_step_append (root d s : string) :
  d <> EmptyString -> join_step root (d ++ s) = join_step root d ++ s.
Proof.
  intros Hd. destruct d as [|c d]; [congruence|]. unfold join_step. cbn [starts_with_sep append].
  destruct (Ascii.eqb c "/"); [reflexivity|].
  destruct (String.eqb root EmptyString || ends_with_sep root);
    now rewrite ?append_assoc.
Qed.

Lemma join_step_not_underscore (p r : string) : join_step p r <> p ++ "_" ++ r.
Proof.
  unfold join_step. intros H.
  destruct (starts_with_sep r).
  - apply (f_equal String.length) in H. rewrite !string_length_append in H. cbn in H. lia.
  - destruct (String.eqb p EmptyString || ends_with_sep p).
    + apply append_inv_head in H. apply (f_equal String.length) in H. cbn in H. lia.
    + apply append_inv_head in H. discriminate.
Qed.

(** X12. A department [d] with a regulation [r] and the department
    named [d_r] with no regulation are two datasets, read from two
    different directories, that get the same collection name and the
    same cache key. *)
Theorem dataset_names_collide
        (data_root d r : string)
        (Hd : d <> EmptyString) (Hr : r <> EmptyString) :
  collection_name_of d (Some r) = collection_name_of (d ++ "_" ++ r) None /\
  chatbot_key_of d (Some r) = chatbot_key_of (d ++ "_" ++ r) None /\
  data_path data_root d (Some r) <> data_path data_root (d ++ "_" ++ r) None.
Proof.
  unfold collection_name_of, chatbot_key_of, data_path.
  rewrite (given_some r Hr), (or_else_some r _ Hr). cbn [given].
  split; [reflexivity|]. split; [reflexivity|].
  unfold path_join. cbn [fold_left]. rewrite (join_step_append data_root d _ Hd).
  apply join_step_not_underscore.
Qed.

Lemma dataset_names_collide_witness :
  collection_name_of "ce" (Some "vr23") = collection_name_of "ce_vr23" None /\
  data_path "data" "ce" (Some "vr23") <> data_path "data" "ce_vr23" None.
Proof.
  destruct (dataset_names_collide "data" "ce" "vr23") as (H1 & _ & H3);
    [discriminate | discriminate |].
  split; [exact H1 | exact H3].
Defined.

(** ** The course endpoint *)





Lemma lookup_app_new {V : Type} (k : string) (v : V) (m : list (string * V)) :
  lookup k m = None -> lookup k (m ++ [(k, v)])%list = Some v.
Proof.
  induction m as [|[k' v'] m IH]; cbn; [now rewrite String.eqb_refl|].
  destruct (String.eqb k k'); [discriminate | exact IH].
Qed.

Lemma handle_course_chat_hit pf api_key course_chatbots request bot :
  given api_key = true ->
  lookup (request_key request) course_chatbots = Some bot ->
  handle_course_chat pf api_key course_chatbots request
  = (served bot (cq_query request), course_chatbots).
Proof.
  intros Hk Hc. unfold handle_course_chat, request_key, served in *. cbv zeta.
  rewrite Hk. cbn [negb]. rewrite Hc. rewrite Hc. now destruct (chat bot _ 10).
Qed.

(** X14. A request that [handle_course_chat] answers leaves its chatbot
    in the cache, and from then on every request for the same department
    and regulation, in any letter case, is answered by that chatbot: the
    file system and the services are not consulted again, the cache no
    longer changes, and a failure of [chat] gives status 500 with the
    fixed detail. *)
Theorem course_chat_caches
        (pf : platform) (api_key : option string)
        (course_chatbots chatbots : list (string * chatbot))
        (request : chat_query) (response : chat_result)
        (Hanswer : handle_course_chat pf api_key course_chatbots request
                   = (Response response, chatbots)) :
  exists bot,
    lookup (request_key request) chatbots = Some bot /\
    chat bot (cq_query request) 10 = Ok response /\
    forall (pf' : platform) (request' : chat_query),
      PyStr.lower (cq_department request') = PyStr.lower (cq_department request) ->
      lowered_regulation request' = lowered_regulation request ->
      handle_course_chat pf' api_key chatbots request'
      = (served bot (cq_query request'), chatbots).
Proof.
  assert (Hk : given api_key = true).
  { unfold handle_course_chat in Hanswer. destruct (given api_key); [reflexivity|].
    cbn in Hanswer. inversion Hanswer. }
  assert (Hbot : exists bot, lookup (request_key request) chatbots = Some bot /\
                             chat bot (cq_query request) 10 = Ok response).
  { unfold handle_course_chat, request_key in *. cbv zeta in Hanswer.
    rewrite Hk in Hanswer. cbn [negb] in Hanswer.
    destruct (lookup _ course_chatbots) as [bot|] eqn:Ec.
    - rewrite Ec in Hanswer. destruct (chat bot _ 10) eqn:Eb; inversion Hanswer; subst.
      now exists bot.
    - destruct (setup_enhanced_chatbot pf _ _ _ DATA_ROOT_DIRECTORY) as [bot|[msg|e]];
        try (inversion Hanswer; fail).
      rewrite (lookup_app_new _ bot _ Ec) in Hanswer.
      destruct (chat bot _ 10) eqn:Eb; inversion Hanswer; subst.
      exists bot. split; [now apply lookup_app_new | exact Eb]. }
  destruct Hbot as (bot & Hl & Hc). exists bot. split; [exact Hl|]. split; [exact Hc|].
  intros pf' request' Hd Hr. apply handle_course_chat_hit; [exact Hk|].
  unfold request_key in *. now rewrite Hd, Hr.
Qed.


Lemma course_chat_caches_witness :
  exists response chatbots bot,
    handle_course_chat ce_platform (Some "key") [] ce_request
    = (Response response, chatbots) /\
    lookup "ce" chatbots = Some bot /\
    handle_course_chat bare_platform (Some "key") chatbots
      (mkChatQuery "and its outcomes" "Ce" None)
    = (served bot "and its outcomes", chatbots).
Proof.
  destruct (handle_course_chat ce_platform (Some "key") [] ce_request)
    as [[response|code d] chatbots] eqn:E; [|vm_compute in E; discriminate].
  destruct (course_chat_caches ce_platform (Some "key") [] chatbots ce_request response E)
    as (bot & Hl & _ & Hnext).
  exists response, chatbots, bot. split; [reflexivity|]. split; [exact Hl|].
  apply Hnext; reflexivity.
Defined.

Lemma load_data_files_done pf sp op st st' u :
  load_data_files pf sp op st = (Done u, st') -> ingested st -> ingested st'.
Proof.
  unfold load_data_files. intros H Hst.
  destruct (read_json pf sp) as [|m|data]; try discriminate.
  destruct (read_json pf op) as [|m|o].
  - pose proof (load_data_preserves_ingested data None st Hst) as Hi.
    destruct (load_data data None st) as [[u'|e] s]; cbn in H; inversion H; subst.
    exact Hi.
  - destruct (load_courses data st) as [[u'|e] s]; discriminate.
  - pose proof (load_data_preserves_ingested data (Some o) st Hst) as Hi.
    destruct (load_data data (Some o) st) as [[u'|e] s]; cbn in H; inversion H; subst.
    exact Hi.
Qed.

Lemma create_store_ok client name st st' u :
  create_enhanced_vector_store client name st = (Ok u, st') ->
  exists created, st' = set_collection (Some (store_collection created)) st.
Proof.
  intros H. destruct (create_collection client name) as [created|msg] eqn:Ec.
  - exists created. rewrite <- (create_store_state client name st created Ec).
    now rewrite H.
  - unfold create_enhanced_vector_store in H.
    destruct (delete_collection client name);
      unfold bindM at 1, lift at 1 in H; rewrite Ec in H; discriminate.
Qed.

Lemma setup_done pf key department regulation root bot :
  setup_enhanced_chatbot pf key department regulation root = Done bot ->
  ingested bot /\ collection bot <> None.
Proof.
  unfold setup_enhanced_chatbot. cbv zeta.
  destruct (String.eqb key EmptyString); [discriminate|].
  destruct (negb (path_exists pf _)); [discriminate|].
  destruct (connect pf key) as [[[m e] client]|]; [|discriminate].
  destruct (load_data_files pf _ _ (init m e)) as [[u|f] loaded] eqn:El; [|discriminate].
  destruct (create_enhanced_vector_store client _ loaded) as [[u'|e'] s] eqn:Ec;
    [|discriminate].
  intros H. inversion H; subst.
  apply load_data_files_done in El; [|apply init_ingested].
  apply create_store_ok in Ec. destruct Ec as [created ->].
  split; [exact El | discriminate].
Qed.

(** X15. [handle_course_chat] only ever caches a chatbot that has gone
    through ingestion and has an active collection: if that is true of
    the cache before a request, it is true of it afterwards, whatever the
    request and the state of the file system and the services. *)
Theorem course_chat_keeps_ready
        (pf : platform) (api_key : option string)
        (course_chatbots : list (string * chatbot)) (request : chat_query)
        (Hready : ready_chatbots course_chatbots) :
  ready_chatbots (snd (handle_course_chat pf api_key course_chatbots request)).
Proof.
  unfold handle_course_chat. cbv zeta.
  destruct (negb (given api_key)); [exact Hready|].
  destruct (lookup _ course_chatbots) as [bot|] eqn:Ec.
  - rewrite Ec. destruct (chat bot _ 10); exact Hready.
  - destruct (setup_enhanced_chatbot pf _ _ _ DATA_ROOT_DIRECTORY)
      as [bot|[msg|e]] eqn:Es; try exact Hready.
    assert (Hnew : ready_chatbots
                     (course_chatbots
                      ++ [(chatbot_key_of (PyStr.lower (cq_department request))
                                          (lowered_regulation request), bot)])%list).
    { apply Forall_app. split; [exact Hready|]. constructor; [|constructor].
      now apply setup_done in Es. }
    destruct (lookup _ (course_chatbots ++ _)%list) as [b|];
      [destruct (chat b _ 10)|]; exact Hnew.
Qed.

Lemma course_chat_keeps_ready_witness :
  ready_chatbots (snd (handle_course_chat ce_platform (Some "key") [] ce_request)).
Proof.
  apply (course_chat_keeps_ready ce_platform (Some "key") [] ce_request).
  constructor.
Defined.

(** ** The question endpoint *)

Lemma first_user_message_exchange (history : list turn) (q ai_response : string) :
  first_user_message (rev (history ++ exchange q ai_response)) = Ok (Some q).
Proof.
  rewrite rev_app_distr. reflexivity.
Qed.

Lemma followups_of_exchange (sv : services) (history history' : list turn)
      (q ai_response : string) :
  generate_followup_questions sv (history ++ exchange q ai_response)
  = generate_followup_questions sv (history' ++ exchange q ai_response).
Proof.
  assert (Hne : forall h : list turn,
             exists t l, (h ++ exchange q ai_response)%list = t :: l)
    by (intros [|t l]; cbn; eexists _, _; reflexivity).
  unfold generate_followup_questions.
  rewrite !first_user_message_exchange.
  destruct (Hne history) as (t & l & ->). destruct (Hne history') as (t' & l' & ->).
  now destruct (vector_store_retriever sv).
Qed.

(** X16. The [chat_history] of a request has no effect on the answer of
    the question endpoint: the follow-up questions are generated from the
    question just asked, which is the most recent user turn of the history
    the endpoint builds, so earlier turns, well formed or not, are never
    read.  The same holds for [ask_admissions_question]. *)
Theorem chat_history_is_not_read
        (a : admissions) (q : string) (history history' : list turn) :
  ask_question a (mkAskRequest q history) = ask_question a (mkAskRequest q history') /\
  ask_admissions_question a (mkAskRequest q history)
  = ask_admissions_question a (mkAskRequest q history') /\
  first_user_message (rev (history ++ exchange q (get_rag_response a q))) = Ok (Some q).
Proof.
  unfold ask_question, ask_admissions_question. cbn [question chat_history].
  destruct (negb (is_rag_initialized a)).
  - split; [reflexivity|]. split; [reflexivity|]. apply first_user_message_exchange.
  - rewrite (followups_of_exchange _ history history').
    split; [reflexivity|]. split; [reflexivity|]. apply first_user_message_exchange.
Qed.

(** X17. [initialize_rag_chain] keeps the flag and the retriever
    consistent: if [is_rag_initialized] is only set with a retriever in
    place before the call, it is so after it, whatever the call meets; the
    module as imported is consistent; and, when the flag is set, the
    answer is that of the chain on the retriever, or the apology followed
    by the chain's error, never the "not yet initialized" text of
    [get_rag_response] itself. *)
Theorem initialization_is_consistent
        (src : rag_sources) (a : admissions) (Ha : consistent a) :
  consistent (initialize_rag_chain src a) /\
  (is_rag_initialized (initialize_rag_chain src a) = true ->
   exists retriever,
     (load_store src = Returned retriever \/ build_store src = Returned retriever) /\
     forall q,
       get_rag_response (initialize_rag_chain src a) q
       = match rag_chain_invoke a retriever q with
         | Returned answer => answer
         | Failed e => "Sorry, an error occurred: " ++ e
         end).
Proof.
  unfold initialize_rag_chain, consistent in *.
  destruct (make_embeddings src) as [u|e]; [|split; discriminate].
  destruct (db_file_exists src).
  - destruct (load_store src) as [r|e]; [|split; discriminate].
    split; [discriminate|]. intros _. exists r. split; [now left | reflexivity].
  - destruct (knowledge_base_exists src); cbn [negb]; [|split; discriminate].
    destruct (build_store src) as [r|e]; [|split; discriminate].
    split; [discriminate|]. intros _. exists r. split; [now right | reflexivity].
Qed.

Lemma imported_consistent sv chain : consistent (imported sv chain).
Proof. intros H. discriminate. Defined.

Lemma initialization_is_consistent_witness :
  consistent (initialize_rag_chain fresh_sources
                (imported one_question_services (fun _ _ => Failed "offline"))).
Proof.
  apply (proj1 (initialization_is_consistent fresh_sources
                  (imported one_question_services (fun _ _ => Failed "offline"))
                  (imported_consistent _ _))).
Defined.

(** ** The columns of the placements table *)

Lemma kept_lower_char (c : ascii) : kept c = true -> PyStr.lower_char c = c.
Proof. destruct c as [[] [] [] [] [] [] [] []]; cbn; (reflexivity || discriminate). Qed.

Lemma lower_upper_char (c : ascii) : PyStr.lower_char (PyStr.upper_char c) = PyStr.lower_char c.
Proof. destruct c as [[] [] [] [] [] [] [] []]; reflexivity. Qed.

Lemma lower_upper (s : string) : PyStr.lower (PyStr.upper s) = PyStr.lower s.
Proof.
  unfold PyStr.upper, PyStr.lower. induction s as [|c s IH]; cbn; [reflexivity|].
  now rewrite lower_upper_char, IH.
Qed.

Lemma remove_others_kept (s : string) : all_kept (remove_others s).
Proof.
  induction s as [|c s IH]; cbn; [intros c []|].
  destruct (kept c) eqn:E; [|exact IH]. intros c' [<-|H]; [exact E | now apply IH].
Qed.

Lemma clean_column_fixed (s : string) : all_kept s -> clean_column s = s.
Proof.
  unfold clean_column, PyStr.lower, all_kept. induction s as [|c s IH]; cbn; [reflexivity|].
  intros H. rewrite (kept_lower_char c) by (apply H; now left).
  rewrite (H c) by now left. f_equal. apply IH. intros c' Hc'. apply H. now right.
Qed.

(** X18. The column names of the placements table are normalised once
    and for all: a prepared name consists of lowercase letters, digits
    and underscores only, preparing it again leaves it as it is, and the
    letter case of the name in the CSV header makes no difference. *)
Theorem prepare_columns_idempotent (columns : list string) :
  Forall all_kept (prepare_columns columns) /\
  prepare_columns (prepare_columns columns) = prepare_columns columns /\
  prepare_columns (map PyStr.upper columns) = prepare_columns columns.
Proof.
  assert (Hone : forall name,
             let n := rename_column (clean_column name) in
             all_kept n /\ rename_column (clean_column n) = n).
  { intros name. cbv zeta.
    destruct (lookup (clean_column name) column_renames) as [renamed|] eqn:E.
    - assert (Hn : rename_column (clean_column name) = renamed)
        by (unfold rename_column; now rewrite E).
      rewrite Hn.
      assert (Hr : renamed = "company_name" \/ renamed = "pay_package_lpa"
                   \/ renamed = "serial_number").
      { cbn in E.
        repeat match type of E with
               | (if ?b then _ else _) = _ => destruct b
               end; inversion E; auto. }
      destruct Hr as [->|[->| ->]];
        (split; [intros c Hc; cbn in Hc;
                 repeat (destruct Hc as [<-|Hc]; [reflexivity|]); destruct Hc
                | reflexivity]).
    - assert (Hn : rename_column (clean_column name) = clean_column name)
        by (unfold rename_column; now rewrite E).
      rewrite Hn. split; [apply remove_others_kept|].
      rewrite (clean_column_fixed (clean_column name)) by apply remove_others_kept.
      exact Hn. }
  unfold prepare_columns. split; [|split].
  - apply Forall_forall. intros n Hn. rewrite map_map in Hn. apply in_map_iff in Hn.
    destruct Hn as (name & <- & _). apply Hone.
  - rewrite !map_map. apply map_ext. intros name. apply Hone.
  - rewrite !map_map. apply map_ext. intros name.
    unfold clean_column. now rewrite lower_upper.
Qed.

(** ** The course details *)

Ltac preserves_walk :=
  repeat first
    [ apply preserves_ret
    | apply preserves_lift
    | apply preserves_read
    | apply preserves_bind; [|intros ?]
    | apply preserves_for_each; intros ?
    | apply preserves_modify; intros ? ?; assumption
    | match goal with
      | |- preserves _ (if ?b then _ else _) => destruct b
      end ].

Lemma load_course_keeps_details (d : list (json * json)) (course : json) :
  preserves (fun s => course_details s = d) (load_course course).
Proof.
  unfold load_course, register_course, overview_chunk, outcomes_chunk, syllabus_chunks,
    books_chunk, append_chunk.
  preserves_walk.
  unfold load_unit, append_chunk. preserves_walk.
Qed.

Lemma find_last {A : Type} (f : A -> bool) (x : A) (l : list A) :
  find f (rev (x :: l))
  = match find f (rev l) with
    | Some y => Some y
    | None => if f x then Some x else None
    end.
Proof.
  cbn [rev]. induction (rev l) as [|y r IH]; cbn; [reflexivity|].
  destruct (f y); [reflexivity | exact IH].
Qed.

(** X19. When the dictionary comprehension of [load_data] succeeds,
    [course_details] is set, and stays so whatever happens later in
    [load_data]; looking a code up in it gives the last record of the
    batch with that course code, whether or not the loop then skips that
    record. *)
Theorem course_details_last_wins
        (courses : list json) (details : list (json * json))
        (Hdetails : course_details_of courses = Ok details) :
  (forall optimization_data st,
      course_details (snd (load_data (JList courses) optimization_data st)) = details) /\
  forall code, details_lookup code details = find (has_code code) (rev courses).
Proof.
  split.
  - intros o st. unfold load_data.
    unfold bindM at 1, lift at 1. cbn [iter].
    unfold bindM at 1, lift at 1. rewrite Hdetails.
    unfold bindM at 1, modify at 1.
    assert (H : forall s, course_details s = details ->
                course_details
                  (snd ((for_each courses load_course ;;;
                         match o with
                         | Some data =>
                             faq <~ lift (get data "faq_dataset" (JList [])) ;;
                             modify (set_faq_data faq) ;;;
                             cm <~ lift (get data "concept_mapping" (JDict [])) ;;
                             modify (set_concept_mapping cm)
                         | None =>
                             modify (set_faq_data (JList [])) ;;;
                             modify (set_concept_mapping (JDict []))
                         end ;;;
                         faq <~ read faq_data ;;
                         _ <~ lift (len faq) ;;
                         ret tt)%M s)) = details).
    { change (preserves (fun s => course_details s = details)
                (for_each courses load_course ;;;
                 match o with
                 | Some data =>
                     faq <~ lift (get data "faq_dataset" (JList [])) ;;
                     modify (set_faq_data faq) ;;;
                     cm <~ lift (get data "concept_mapping" (JDict [])) ;;
                     modify (set_concept_mapping cm)
                 | None =>
                     modify (set_faq_data (JList [])) ;;;
                     modify (set_concept_mapping (JDict []))
                 end ;;;
                 faq <~ read faq_data ;;
                 _ <~ lift (len faq) ;;
                 ret tt)%M).
      apply preserves_bind;
        [apply preserves_for_each; intros c; apply load_course_keeps_details | intros _].
      apply preserves_bind; [destruct o|intros _]; preserves_walk. }
    now apply H.
  - intros code. revert details Hdetails.
    induction courses as [|course courses IH]; intros details H.
    + inversion H. reflexivity.
    + cbn [course_details_of] in H. rewrite find_last. unfold has_code.
      destruct (getitem course "metadata") as [md|e]; [|discriminate]. cbn [Py.bind] in H.
      destruct (getitem md "course_code") as [c|e]; [|discriminate]. cbn [Py.bind] in H.
      destruct (hashable c) as [u|e]; [|discriminate]. cbn [Py.bind] in H.
      destruct (course_details_of courses) as [tl|e]; [|discriminate].
      cbn [Py.bind] in H. inversion H; subst. cbn [details_lookup].
      rewrite (IH tl eq_refl).
      destruct (find _ (rev courses)); [reflexivity|]. now destruct c.
Qed.

Lemma course_details_last_wins_witness :
  details_lookup "23BS1102"
    (course_details (snd (load_data (JList [sample_record; record_without_name]) None idle_bot)))
  = Some record_without_name.
Proof.
  destruct (course_details_last_wins [sample_record; record_without_name] _ eq_refl)
    as [Hset Hfind].
  rewrite Hset. apply Hfind.
Defined.

(** ** Incomplete records in a batch *)

Lemma agree_refl s : agree s s.
Proof. reflexivity. Qed.

Lemma agree_details d d' s : agree (set_course_details d s) (set_course_details d' s).
Proof. reflexivity. Qed.

Lemma frame_ret {A : Type} (a : A) : frame_safe (ret a).
Proof. intros s s' H. split; [reflexivity | exact H]. Qed.

Lemma frame_lift {A : Type} (r : result A) : frame_safe (lift r).
Proof. intros s s' H. split; [reflexivity | exact H]. Qed.

Lemma frame_read {A : Type} (f : chatbot -> A) :
  (forall s s', agree s s' -> f s = f s') -> frame_safe (read f).
Proof. intros Hf s s' H. cbn. split; [now rewrite (Hf s s' H) | exact H]. Qed.

Lemma frame_modify (f : chatbot -> chatbot) :
  (forall s s', agree s s' -> agree (f s) (f s')) -> frame_safe (modify f).
Proof. intros Hf s s' H. cbn. split; [reflexivity | now apply Hf]. Qed.

Lemma frame_bind {A B : Type} (m : M A) (k : A -> M B) :
  frame_safe m -> (forall a, frame_safe (k a)) -> frame_safe (bindM m k).
Proof.
  intros Hm Hk s s' H. destruct (Hm s s' H) as [Hr Hs]. unfold bindM.
  destruct (m s) as [[a|e] s1]; destruct (m s') as [[a'|e'] s1'];
    cbn [fst snd] in *; try discriminate.
  - inversion Hr; subst. now apply Hk.
  - inversion Hr; subst. split; [reflexivity | assumption].
Qed.

Lemma frame_for_each {A : Type} (l : list A) (body : A -> M unit) :
  (forall a, frame_safe (body a)) -> frame_safe (for_each l body).
Proof.
  intros H. induction l as [|x l IH]; cbn [for_each];
    [apply frame_ret | apply frame_bind; auto].
Qed.

Lemma agree_field {A : Type} (f : chatbot -> A) (s s' : chatbot) :
  (forall d x, f (set_course_details d x) = f x) -> agree s s' -> f s = f s'.
Proof.
  intros Hf H. rewrite <- (Hf [] s), <- (Hf [] s'). now rewrite H.
Qed.

Lemma agree_update (g : chatbot -> chatbot) (s s' : chatbot) :
  (forall d x, set_course_details d (g x) = g (set_course_details d x)) ->
  agree s s' -> agree (g s) (g s').
Proof.
  unfold agree. intros Hg H. now rewrite !Hg, H.
Qed.

Ltac frame_walk :=
  repeat first
    [ apply frame_ret
    | apply frame_lift
    | apply frame_bind; [|intros ?]
    | apply frame_for_each; intros ?
    | match goal with
      | |- frame_safe (if ?b then _ else _) => destruct b
      end ].

Lemma frame_append_chunk (c : chunk) : frame_safe (append_chunk c).
Proof.
  apply frame_modify. intros s s' H.
  rewrite (agree_field chunks_data s s') by (reflexivity || assumption).
  apply (agree_update (set_chunks_data _)); [reflexivity | exact H].
Qed.

Lemma frame_register (f : list (string * list course_summary)
                          -> list (string * list course_summary)) :
  frame_safe (modify (fun st => set_semester_course_map (f (semester_course_map st)) st)).
Proof.
  apply frame_modify. intros s s' H.
  rewrite (agree_field semester_course_map s s') by (reflexivity || assumption).
  apply (agree_update (set_semester_course_map _)); [reflexivity | exact H].
Qed.

Lemma load_course_frame (course : json) : frame_safe (load_course course).
Proof.
  unfold load_course, register_course, overview_chunk, outcomes_chunk, syllabus_chunks,
    books_chunk.
  frame_walk; try apply frame_append_chunk;
    try (apply (frame_register (ensure_semester _)));
    try (apply (frame_register (append_course _ _))).
  unfold load_unit. frame_walk. apply frame_append_chunk.
Qed.

Lemma for_each_app {A : Type} (l1 l2 : list A) (body : A -> M unit) (s : chatbot) :
  for_each (l1 ++ l2) body s = bindM (for_each l1 body) (fun _ => for_each l2 body) s.
Proof.
  revert s. induction l1 as [|x l1 IH]; intros s; cbn [app for_each].
  - reflexivity.
  - unfold bindM. destruct (body x s) as [[u|e] s1]; [|reflexivity].
    rewrite IH. reflexivity.
Qed.

Lemma course_details_of_skip (l1 l2 : list json) (bad : json) (md : list (string * json))
      (code : json) :
  getitem bad "metadata" = Ok (JDict md) ->
  getitem (JDict md) "course_code" = Ok code -> hashable code = Ok tt ->
  match course_details_of (l1 ++ bad :: l2), course_details_of (l1 ++ l2) with
  | Ok _, Ok _ => True
  | Raise e, Raise e' => e = e'
  | _, _ => False
  end.
Proof.
  intros Hm Hc Hh. induction l1 as [|x l1 IH]; cbn [app course_details_of].
  - rewrite Hm. cbn [Py.bind]. rewrite Hc. cbn [Py.bind]. rewrite Hh. cbn [Py.bind].
    now destruct (course_details_of l2).
  - destruct (getitem x "metadata") as [xm|e]; cbn [Py.bind]; [|reflexivity].
    destruct (getitem xm "course_code") as [xc|e]; cbn [Py.bind]; [|reflexivity].
    destruct (hashable xc) as [u|e]; cbn [Py.bind]; [|reflexivity].
    destruct (course_details_of (l1 ++ bad :: l2));
      destruct (course_details_of (l1 ++ l2)); cbn [Py.bind]; auto.
Qed.

Lemma load_data_shape (optimization_data : option json) :
  exists rest : unit -> M unit,
    (forall u, frame_safe (rest u)) /\
    forall courses st,
      load_data (JList courses) optimization_data st
      = match course_details_of courses with
        | Ok details =>
            bindM (for_each courses load_course) rest (set_course_details details st)
        | Raise e => (Raise e, st)
        end.
Proof.
  exists (fun _ : unit =>
            (match optimization_data with
             | Some data =>
                 faq <~ lift (get data "faq_dataset" (JList [])) ;;
                 modify (set_faq_data faq) ;;;
                 cm <~ lift (get data "concept_mapping" (JDict [])) ;;
                 modify (set_concept_mapping cm)
             | None =>
                 modify (set_faq_data (JList [])) ;;;
                 modify (set_concept_mapping (JDict []))
             end ;;;
             faq <~ read faq_data ;;
             _ <~ lift (len faq) ;;
             ret tt)%M).
  split.
  - intros u. apply frame_bind; [destruct optimization_data|intros _].
    + frame_walk; apply frame_modify; intros s s' H.
      * apply (agree_update (set_faq_data _)); [reflexivity | exact H].
      * apply (agree_update (set_concept_mapping _)); [reflexivity | exact H].
    + frame_walk; apply frame_modify; intros s s' H.
      * apply (agree_update (set_faq_data _)); [reflexivity | exact H].
      * apply (agree_update (set_concept_mapping _)); [reflexivity | exact H].
    + apply frame_bind; [|intros faq; frame_walk].
      apply frame_read. intros s s' H. now apply (agree_field faq_data).
  - intros courses st. unfold load_data. cbn [iter].
    unfold bindM at 1, lift at 1. unfold bindM at 1, lift at 1.
    destruct (course_details_of courses) as [d|e]; reflexivity.
Qed.

(** X20. An incomplete record does not disturb the batch when it has a
    course code field: a record whose metadata holds a (hashable) value
    under "course_code" but lacks a non-empty code, name or semester can
    be removed from the batch without changing the outcome of
    [load_data], nor anything of the resulting state but
    [course_details]. *)
Theorem incomplete_record_is_invisible
        (l1 l2 : list json) (bad : json) (md : list (string * json)) (code : json)
        (optimization_data : option json) (st : chatbot)
        (Hmd : getitem bad "metadata" = Ok (JDict md))
        (Hcode : getitem (JDict md) "course_code" = Ok code)
        (Hhash : hashable code = Ok tt)
        (Hkeys : truthy (field md "course_code" JNull)
                 && truthy (field md "course_name" JNull)
                 && truthy (field md "semester" JNull) = false) :
  let with_it := load_data (JList (l1 ++ bad :: l2)) optimization_data st in
  let without := load_data (JList (l1 ++ l2)) optimization_data st in
  fst with_it = fst without /\ agree (snd with_it) (snd without) /\
  chunks_data (snd with_it) = chunks_data (snd without) /\
  semester_course_map (snd with_it) = semester_course_map (snd without).
Proof.
  cbv zeta.
  assert (Hmain : fst (load_data (JList (l1 ++ bad :: l2)) optimization_data st)
                  = fst (load_data (JList (l1 ++ l2)) optimization_data st) /\
                  agree (snd (load_data (JList (l1 ++ bad :: l2)) optimization_data st))
                        (snd (load_data (JList (l1 ++ l2)) optimization_data st))).
  { assert (Hget : get bad "metadata" (JDict []) = Ok (JDict md)).
    { destruct bad; try discriminate. cbn in *.
      destruct (lookup "metadata" d); [now inversion Hmd | discriminate]. }
    assert (Hskip : forall s, load_course bad s = (Ok tt, s))
      by (intros s; now apply (load_course_skips_incomplete bad md s Hget Hkeys)).
    pose proof (course_details_of_skip l1 l2 bad md code Hmd Hcode Hhash) as Hd.
    destruct (load_data_shape optimization_data) as [rest [Hrest Hshape]].
    rewrite !Hshape.
    destruct (course_details_of (l1 ++ bad :: l2)) as [d|e];
      destruct (course_details_of (l1 ++ l2)) as [d'|e']; try contradiction.
    2: { subst e'. split; reflexivity. }
    assert (Hloop : forall s,
               for_each (l1 ++ bad :: l2) load_course s
               = for_each (l1 ++ l2) load_course s).
    { intros s. rewrite !for_each_app. unfold bindM.
      destruct (for_each l1 load_course s) as [[u|e] s1]; [|reflexivity].
      cbn [for_each]. unfold bindM. now rewrite Hskip. }
    assert (E : bindM (for_each (l1 ++ bad :: l2) load_course) rest
                      (set_course_details d st)
                = bindM (for_each (l1 ++ l2) load_course) rest
                        (set_course_details d st))
      by (unfold bindM; now rewrite Hloop).
    rewrite E.
    apply (frame_bind (for_each (l1 ++ l2) load_course) rest).
    - apply frame_for_each. intros c. apply load_course_frame.
    - exact Hrest.
    - apply agree_details. }
  destruct Hmain as [Hr Ha]. split; [exact Hr|]. split; [exact Ha|].
  split; [now apply (agree_field chunks_data) | now apply (agree_field semester_course_map)].
Qed.

Lemma incomplete_record_is_invisible_witness :
  chunks_data (snd (load_data (JList [sample_record; record_without_name]) None idle_bot))
  = chunks_data (snd (load_data (JList [sample_record]) None idle_bot)).
Proof.
  exact (proj1 (proj2 (proj2
           (incomplete_record_is_invisible [sample_record] [] record_without_name
              [("course_code", JStr "23BS1102"); ("semester", JInt 1)]
              (JStr "23BS1102") None idle_bot eq_refl eq_refl eq_refl eq_refl)))).
Defined.
